(** * Release freeze enforcer: a shallow embedding of [entrypoint.py]

    The program is one Python function, [main], that reads its configuration
    from the process environment, asks the clock for the current instant,
    decides whether that instant lies inside a freeze window, looks for an
    override, and reports a decision through the [GITHUB_OUTPUT] file and the
    process exit code.

    The embedding keeps the shape of the source:
    - the process environment, the clock and the event payload file are the
      fields of a [World];
    - the third-party libraries ([pytz], [dateutil.parser], [dateutil.rrule])
      and the formatting methods of [datetime] are the fields of a [Libs]
      record; a call that can raise returns a [result];
    - [print], appending to a file, [sys.exit] and an uncaught exception are
      the operations of a small state-and-exit monad [M];
    - [main] is split at the numbered comments of the source
      ([# 2. Freeze Logic], [# 3. Override Logic], [# 4. Decision],
      [# 5. Outputs], [# 6. Summary]); local variables that cross a split
      are passed explicitly.

    A [str] is the string of its UTF-8 bytes.  [str.lower] and [str.upper]
    are the ASCII maps on a [str] of ASCII characters and fields of [Libs] on
    any other; [int] is a field of [Libs].  The files that [GITHUB_OUTPUT]
    and [GITHUB_STEP_SUMMARY] name are taken to be files that [open] can
    append to: the program is run by the action runner, which creates both. *)

From Stdlib Require Import ZArith List String Ascii Bool Lia.
Import ListNotations.

Local Open Scope string_scope.
Local Open Scope Z_scope.

(** ** Python values used by the program *)

(** The outcome of a call that may raise: [Raise msg] carries [str(e)]. *)
Inductive result (A : Type) : Type :=
| Ok (a : A)
| Raise (msg : string).
Arguments Ok {A} a.
Arguments Raise {A} msg.

Definition rbind {A B : Type} (r : result A) (k : A -> result B) : result B :=
  match r with
  | Ok a => k a
  | Raise msg => Raise msg
  end.

Notation "x <~ r ;; k" := (rbind r (fun x => k))
  (at level 61, r at next level, right associativity).

(** Truth value of a [str | None]: [None] and the empty string are false. *)
Definition truthy (v : option string) : bool :=
  match v with
  | None => false
  | Some s => negb (String.eqb s "")
  end.

(** [a == b] where [a] is [str | None] and [b] is a [str]. *)
Definition opt_eqb (a : option string) (b : string) : bool :=
  match a with
  | None => false
  | Some s => String.eqb s b
  end.

(** Is the variable set at all? *)
Definition truthy_path (v : option string) : bool :=
  match v with
  | None => false
  | Some _ => true
  end.

(** The [str] held by a variable that has just been tested truthy. *)
Definition str_of (v : option string) : string :=
  match v with
  | Some s => s
  | None => ""
  end.

Definition nl : string := String (ascii_of_nat 10) EmptyString.

Definition in_range (lo hi : nat) (c : ascii) : bool :=
  (Nat.leb lo (nat_of_ascii c) && Nat.leb (nat_of_ascii c) hi)%bool.

Definition lower_char (c : ascii) : ascii :=
  if in_range 65 90 c then ascii_of_nat (nat_of_ascii c + 32) else c.

Definition upper_char (c : ascii) : ascii :=
  if in_range 97 122 c then ascii_of_nat (nat_of_ascii c - 32) else c.

Fixpoint map_string (f : ascii -> ascii) (s : string) : string :=
  match s with
  | EmptyString => EmptyString
  | String c r => String (f c) (map_string f r)
  end.

(** [str.lower] and [str.upper] on a [str] of ASCII characters. *)
Definition lower : string -> string := map_string lower_char.
Definition upper : string -> string := map_string upper_char.

Fixpoint is_ascii (s : string) : bool :=
  match s with
  | EmptyString => true
  | String c r => (Nat.ltb (nat_of_ascii c) 128 && is_ascii r)%bool
  end.

(** *** Decimal literals in ASCII

    What [int(s)] does on a short [str] of ASCII characters: blanks around,
    an optional sign, digits with single underscores between them.  The
    program takes [int] from the library record; this reading is the one the
    concrete scenarios run with. *)

Module PyInt.

Definition is_space (c : ascii) : bool :=
  (in_range 9 13 c || Ascii.eqb c " ")%bool.

Definition is_digit (c : ascii) : bool := in_range 48 57 c.

Definition digit (c : ascii) : Z := Z.of_nat (nat_of_ascii c) - 48.

Fixpoint lstrip (s : list ascii) : list ascii :=
  match s with
  | c :: r => if is_space c then lstrip r else s
  | [] => []
  end.

Definition strip (s : list ascii) : list ascii :=
  rev (lstrip (rev (lstrip s))).

(** Decimal digits, a single underscore allowed between two digits. *)
Fixpoint digits (s : list ascii) (acc : Z) (after_digit : bool) : option Z :=
  match s with
  | [] => if after_digit then Some acc else None
  | c :: r =>
      if is_digit c then digits r (10 * acc + digit c) true
      else if (Ascii.eqb c "_" && after_digit)%bool then
             match r with
             | d :: _ => if is_digit d then digits r acc false else None
             | [] => None
             end
           else None
  end.

Definition signed (s : list ascii) : option Z :=
  match s with
  | c :: r =>
      if Ascii.eqb c "-" then option_map Z.opp (digits r 0 false)
      else if Ascii.eqb c "+" then digits r 0 false
      else digits s 0 false
  | [] => None
  end.

Definition int (s : string) : result Z :=
  match signed (strip (list_ascii_of_string s)) with
  | Some n => Ok n
  | None => Raise ("invalid literal for int() with base 10: '" ++ s ++ "'")
  end.

End PyInt.

(** *** Dates and times

    A naive [datetime] is the number of microseconds between
    0001-01-01T00:00:00 and its wall-clock reading, so the representable ones
    are [0 .. datetime_max].  An aware [datetime] is a wall-clock reading
    together with the UTC offset of its [tzinfo]; aware values are ordered by
    the instant [wall - utcoffset]. *)

Definition usec_per_minute : Z := 60000000.
Definition usec_per_day : Z := 86400000000.
Definition datetime_max : Z := 3652059 * usec_per_day - 1.
Definition timedelta_max_days : Z := 999999999.

Record aware : Type := { wall : Z; utcoffset : Z }.

Definition instant (a : aware) : Z := wall a - utcoffset a.

Definition aware_le (a b : aware) : bool := instant a <=? instant b.

Inductive datetime : Type :=
| Naive (w : Z)
| Aware (a : aware).

(** [datetime.timedelta(minutes=n)], in microseconds. *)
Definition timedelta_minutes (n : Z) : result Z :=
  if (Z.abs (n / 1440) <=? timedelta_max_days)
  then Ok (n * usec_per_minute)
  else Raise "days out of range for timedelta".

(** [dt + td] for a naive [dt]. *)
Definition datetime_add (dt td : Z) : result Z :=
  if ((0 <=? dt + td) && (dt + td <=? datetime_max))%bool
  then Ok (dt + td)
  else Raise "date value out of range".

(** Python's [date.toordinal], used to write concrete instants. *)
Definition is_leap (y : Z) : bool :=
  ((y mod 4 =? 0) && (negb (y mod 100 =? 0) || (y mod 400 =? 0)))%bool.

Definition days_before_year (y : Z) : Z :=
  (y - 1) * 365 + (y - 1) / 4 - (y - 1) / 100 + (y - 1) / 400.

Definition days_before_month (y m : Z) : Z :=
  nth (Z.to_nat (m - 1)) [0; 31; 59; 90; 120; 151; 181; 212; 243; 273; 304; 334] 0
  + (if ((2 <? m) && is_leap y)%bool then 1 else 0).

Definition toordinal (y m d : Z) : Z :=
  days_before_year y + days_before_month y m + d.

Definition at_time (y m d hh mm : Z) : Z :=
  (toordinal y m d - 1) * usec_per_day + (hh * 60 + mm) * usec_per_minute.

(** *** JSON values, as [json.load] returns them *)

#[warnings="-register-all"]
Inductive json : Type :=
| JNull
| JBool (b : bool)
| JNum (n : Z)
| JStr (s : string)
| JArr (items : list json)
| JObj (fields : list (string * json)).

Module Json.

Fixpoint lookup (k : string) (fields : list (string * json)) : option json :=
  match fields with
  | [] => None
  | (k', v) :: r => if String.eqb k k' then Some v else lookup k r
  end.

(** [v.get(k, default)]: only a [dict] has the method. *)
Definition get (v : json) (k : string) (default : json) : result json :=
  match v with
  | JObj fields =>
      match lookup k fields with
      | Some x => Ok x
      | None => Ok default
      end
  | _ => Raise "object has no attribute 'get'"
  end.

(** [l['name']]. *)
Definition item (l : json) (k : string) : result json :=
  match l with
  | JObj fields =>
      match lookup k fields with
      | Some x => Ok x
      | None => Raise ("'" ++ k ++ "'")
      end
  | JStr _ => Raise "string indices must be integers"
  | JArr _ => Raise "list indices must be integers or slices, not str"
  | _ => Raise "object is not subscriptable"
  end.

Fixpoint chars (s : string) : list json :=
  match s with
  | EmptyString => []
  | String c r => JStr (String c EmptyString) :: chars r
  end.

(** What [for l in v] runs through. *)
Definition iter (v : json) : result (list json) :=
  match v with
  | JArr items => Ok items
  | JObj fields => Ok (map (fun kv => JStr (fst kv)) fields)
  | JStr s => Ok (chars s)
  | _ => Raise "object is not iterable"
  end.

Fixpoint names (ls : list json) : result (list json) :=
  match ls with
  | [] => Ok []
  | l :: r => n <~ item l "name" ;; ns <~ names r ;; Ok (n :: ns)
  end.

(** [s in values] for a [str] [s]: equality with a non-string is false. *)
Definition is_str (s : string) (v : json) : bool :=
  match v with
  | JStr s' => String.eqb s s'
  | _ => false
  end.

Definition contains (s : string) (values : list json) : bool :=
  existsb (is_str s) values.

End Json.

(** ** The libraries and the world around the program *)

(** A [pytz] timezone: the offset [astimezone] gives an instant of UTC
    (microseconds since 0001-01-01T00:00:00Z), and the offset [localize]
    gives a naive wall-clock reading. *)
Record tzinfo : Type := {
  tz_utcoffset : Z -> Z;
  tz_localize : Z -> result Z
}.

(** A parsed recurrence rule; [before dt inc] is [rule.before(dt, inc=inc)]
    for a naive [dt]. *)
Record rrule_obj : Type := {
  before : Z -> bool -> result (option Z)
}.

Record Libs : Type := {
  pytz_timezone : string -> option tzinfo;
  parser_parse : string -> result datetime;
  rrulestr : string -> Z -> result rrule_obj;
  dt_isoformat : aware -> string;
  dt_str : aware -> string;
  dt_strftime : string -> aware -> string;
  (* the builtins of the interpreter *)
  builtin_int : string -> result Z;
  unicode_lower : string -> string;
  unicode_upper : string -> string
}.

(** [s.lower()] and [s.upper()]: the ASCII maps on a [str] of ASCII
    characters, the interpreter's own answer on any other. *)
Definition str_lower (L : Libs) (s : string) : string :=
  if is_ascii s then lower s else unicode_lower L s.

Definition str_upper (L : Libs) (s : string) : string :=
  if is_ascii s then upper s else unicode_upper L s.

Record World : Type := {
  environ : string -> option string;
  clock : Z;
  path_exists : string -> bool;
  read_json : string -> result json
}.

(** ** Effects: standard output, appended files, exit *)

Record state : Type := {
  stdout : list string;
  written : list (string * string)
}.

Definition init : state := {| stdout := []; written := [] |}.

Inductive outcome (A : Type) : Type :=
| Normal (a : A)
| SysExit (code : Z)
| Uncaught (exc : string).
Arguments Normal {A} a.
Arguments SysExit {A} code.
Arguments Uncaught {A} exc.

Definition M (A : Type) : Type := state -> outcome A * state.

Definition ret {A : Type} (a : A) : M A := fun st => (Normal a, st).

Definition bind {A B : Type} (m : M A) (k : A -> M B) : M B :=
  fun st =>
    match m st with
    | (Normal a, st') => k a st'
    | (SysExit c, st') => (SysExit c, st')
    | (Uncaught e, st') => (Uncaught e, st')
    end.

Notation "x <- m ;; k" := (bind m (fun x => k))
  (at level 61, m at next level, right associativity).
Notation "m ;;; k" := (bind m (fun _ => k))
  (at level 61, right associativity).

Definition print (line : string) : M unit :=
  fun st => (Normal tt, {| stdout := stdout st ++ [line]; written := written st |}).

Definition append_file (path text : string) : M unit :=
  fun st => (Normal tt, {| stdout := stdout st; written := written st ++ [(path, text)] |}).

Definition sys_exit {A : Type} (code : Z) : M A := fun st => (SysExit code, st).

Definition raise {A : Type} (exc : string) : M A := fun st => (Uncaught exc, st).

(** ** The program *)

(** The variables of [# 2. Freeze Logic] that the rest of [main] reads. *)
Record window_state : Type := {
  is_frozen : bool;
  window_type : string;
  window_name : string;
  active_start : option aware;
  active_end : option aware;
  reason : string
}.

(** Lines 79-84: the values before any window is examined. *)
Definition no_window : window_state := {|
  is_frozen := false;
  window_type := "NONE";
  window_name := "";
  active_start := None;
  active_end := None;
  reason := "No active freeze window"
|}.

Definition bool_str (b : bool) : string := if b then "true" else "false".

Definition emoji (codes : list Z) : string :=
  string_of_list_ascii (map (fun c => ascii_of_nat (Z.to_nat c)) codes).

(** Lines 42-45; the literals are the bytes of the source file. *)
Definition get_status_emoji (decision : string) : string :=
  if String.eqb decision "BLOCK" then emoji [239; 163; 191; 195; 188; 195; 182; 194; 180]
  else if String.eqb decision "WARN"
       then emoji [226; 128; 154; 195; 182; 226; 128; 160; 195; 148; 226; 136; 143; 195; 168]
       else emoji [226; 128; 154; 195; 186; 195; 150].

Section Program.

Variable L : Libs.
Variable W : World.

(** Lines 8-10, [get_input(name)]: the default is [None]. *)
Definition get_input (name : string) : option string :=
  environ W ("INPUT_" ++ str_upper L name).

(** Lines 8-10, [get_input(name, default)] with a [str] default. *)
Definition get_input_or (name default : string) : string :=
  match environ W ("INPUT_" ++ str_upper L name) with
  | Some v => v
  | None => default
  end.

(** Lines 12-15; a missing [GITHUB_OUTPUT] is a [KeyError], and the file it
    names is one that [open] can append to. *)
Definition set_output (name value : string) : M unit :=
  match environ W "GITHUB_OUTPUT" with
  | Some path => append_file path (name ++ "=" ++ value ++ nl)
  | None => raise "KeyError: 'GITHUB_OUTPUT'"
  end.

(** Lines 17-40. *)
Definition write_summary (environ_ now_local now_utc : string)
    (is_frozen_ : bool) (decision window_details override_details : string)
  : M unit :=
  if negb (String.eqb (str_lower L (get_input_or "summary" "true")) "true") then ret tt
  else
    let summary :=
      nl ++ "### Release Freeze Status: " ++ decision ++ " "
         ++ get_status_emoji decision ++ nl
      ++ nl
      ++ "| Metric | Value |" ++ nl
      ++ "| :--- | :--- |" ++ nl
      ++ "| **Environment** | `" ++ environ_ ++ "` |" ++ nl
      ++ "| **Local Time** | `" ++ now_local ++ "` |" ++ nl
      ++ "| **UTC Time** | `" ++ now_utc ++ "` |" ++ nl
      ++ "| **Status** | `" ++ (if is_frozen_ then "Frozen" else "Free") ++ "` |" ++ nl
      ++ nl in
    let summary :=
      if negb (String.eqb window_details "")
      then summary ++ "#### Active Freeze Window" ++ nl ++ window_details ++ nl
      else summary in
    let summary :=
      if negb (String.eqb override_details "")
      then summary ++ "#### Override Active" ++ nl ++ override_details ++ nl
      else summary in
    match environ W "GITHUB_STEP_SUMMARY" with
    | Some path => append_file path summary
    | None => raise "KeyError: 'GITHUB_STEP_SUMMARY'"
    end.

(** Lines 47-52. *)
Definition parse_timezone (tz_str : string) : M tzinfo :=
  match pytz_timezone L tz_str with
  | Some tz => ret tz
  | None => print ("::error::Unknown timezone: " ++ tz_str) ;;; sys_exit 1
  end.

(** [now_utc.astimezone(timezone)]. *)
Definition astimezone (tz : tzinfo) (utc : Z) : aware :=
  {| wall := utc + tz_utcoffset tz utc; utcoffset := tz_utcoffset tz utc |}.

(** [timezone.localize(dt)] for a naive [dt]. *)
Definition localize (tz : tzinfo) (w : Z) : result aware :=
  off <~ tz_localize tz w ;; Ok {| wall := w; utcoffset := off |}.

(** Lines 99-102: [if dt.tzinfo is None: dt = timezone.localize(dt)]. *)
Definition localize_if_naive (tz : tzinfo) (dt : datetime) : result aware :=
  match dt with
  | Naive w => localize tz w
  | Aware a => Ok a
  end.

(** Lines 96-110, the body of the [try] of the fixed window. *)
Definition fixed_window (tz : tzinfo) (now_local : aware)
    (freeze_start_str freeze_end_str : string) : result window_state :=
  dt_start <~ parser_parse L freeze_start_str ;;
  dt_end <~ parser_parse L freeze_end_str ;;
  dt_start <~ localize_if_naive tz dt_start ;;
  dt_end <~ localize_if_naive tz dt_end ;;
  if (aware_le dt_start now_local && aware_le now_local dt_end)%bool
  then Ok {| is_frozen := true;
             window_type := "FIXED";
             window_name := "Fixed Freeze Window";
             active_start := Some dt_start;
             active_end := Some dt_end;
             reason := "Current time is within fixed freeze window" |}
  else Ok no_window.

(** Lines 122-156, the body of the [try] of the recurring window. *)
Definition recurring_window (tz : tzinfo) (now_local : aware)
    (rrule_str duration_mins : string) : result window_state :=
  duration <~ builtin_int L duration_mins ;;
  rule <~ rrulestr L rrule_str (wall now_local) ;;
  let now_naive := wall now_local in
  last_start <~ before rule now_naive true ;;
  match last_start with
  | Some last_start =>
      delta <~ timedelta_minutes duration ;;
      window_end <~ datetime_add last_start delta ;;
      if now_naive <? window_end
      then
        a_start <~ localize tz last_start ;;
        a_end <~ localize tz window_end ;;
        Ok {| is_frozen := true;
              window_type := "RRULE";
              window_name := "Recurring Freeze Window";
              active_start := Some a_start;
              active_end := Some a_end;
              reason := "Current time is within recurring freeze window" |}
      else Ok no_window
  | None => Ok no_window
  end.

(** Lines 78-160, [# 2. Freeze Logic]. *)
Definition freeze_logic (tz : tzinfo) (now_local : aware)
    (freeze_start_str freeze_end_str rrule_str duration_mins : option string)
  : M window_state :=
  (if ((truthy freeze_start_str || truthy freeze_end_str) && truthy rrule_str)%bool
   then
     print "::error::Cannot specify both fixed window (freeze_start/end) and recurring window (rrule)." ;;;
     sys_exit 1
   else ret tt) ;;;
  if (truthy freeze_start_str && truthy freeze_end_str)%bool then
    match fixed_window tz now_local (str_of freeze_start_str) (str_of freeze_end_str) with
    | Ok ws => ret ws
    | Raise msg =>
        print ("::error::Failed to parse fixed window dates: " ++ msg) ;;;
        sys_exit 1
    end
  else if truthy rrule_str then
    (if negb (truthy duration_mins)
     then
       print "::error::Input 'duration_minutes' is required when using 'rrule'." ;;;
       sys_exit 1
     else ret tt) ;;;
    match recurring_window tz now_local (str_of rrule_str) (str_of duration_mins) with
    | Ok ws => ret ws
    | Raise msg =>
        print ("::error::Failed to process rrule: " ++ msg) ;;;
        sys_exit 1
    end
  else ret no_window.

(** Line 175: [[l['name'] for l in payload.get('pull_request', {}).get('labels', [])]]. *)
Definition pr_labels (payload : json) : result (list json) :=
  pr <~ Json.get payload "pull_request" (JObj []) ;;
  labels <~ Json.get pr "labels" (JArr []) ;;
  ls <~ Json.iter labels ;;
  Json.names ls.

(** Lines 172-176: does the payload at [event_path] carry the label? *)
Definition label_in_payload (event_path allow_override_label : string) : result bool :=
  payload <~ read_json W event_path ;;
  names <~ pr_labels payload ;;
  Ok (Json.contains allow_override_label names).

(** Lines 167-183, the label override; returns the new
    [(overridden, override_reason_text)]. *)
Definition label_override (allow_override_label : option string) : M (bool * string) :=
  if (truthy allow_override_label
      && opt_eqb (environ W "GITHUB_EVENT_NAME") "pull_request")%bool
  then
    let event_path := environ W "GITHUB_EVENT_PATH" in
    if (truthy event_path && path_exists W (str_of event_path))%bool then
      match label_in_payload (str_of event_path) (str_of allow_override_label) with
      | Ok true =>
          let override_reason_text :=
            "PR label '" ++ str_of allow_override_label ++ "' matched" in
          print ("Override applied: " ++ override_reason_text) ;;;
          ret (true, override_reason_text)
      | Ok false => ret (false, "")
      | Raise msg =>
          print ("::warning::Failed to read event payload for label check: " ++ msg) ;;;
          ret (false, "")
      end
    else
      print "::warning::GITHUB_EVENT_PATH not found, skipping label check." ;;;
      ret (false, "")
  else ret (false, "").

(** Lines 185-192, the actor override, given the values the label
    override left. *)
Definition actor_override (allow_override_actor : option string)
    (ov : bool * string) : M (bool * string) :=
  if (truthy allow_override_actor && negb (fst ov))%bool then
    let actor := environ W "GITHUB_ACTOR" in
    if opt_eqb actor (str_of allow_override_actor) then
      let override_reason_text :=
        "Actor '" ++ str_of actor ++ "' is allowed to override" in
      print ("Override applied: " ++ override_reason_text) ;;;
      ret (true, override_reason_text)
    else ret ov
  else ret ov.

(** Lines 162-192, [# 3. Override Logic]. *)
Definition override_logic (is_frozen_ : bool)
    (allow_override_label allow_override_actor : option string)
  : M (bool * string) :=
  if is_frozen_ then
    ov <- label_override allow_override_label ;;
    actor_override allow_override_actor ov
  else ret (false, "").

(** Lines 194-211, [# 4. Decision]: returns
    [(final_decision, exit_code, reason)]. *)
Definition decision (is_frozen_ overridden : bool)
    (behavior fail_msg reason_ override_reason_text : string)
  : M (string * Z * string) :=
  if (is_frozen_ && negb overridden)%bool then
    if String.eqb behavior "block" then ret ("BLOCK", 1, reason_)
    else if String.eqb behavior "warn" then
      print ("::warning::" ++ fail_msg) ;;;
      ret ("WARN", 0, reason_)
    else
      print "::notice::Freeze active but behavior is 'allow'." ;;;
      ret ("ALLOW", 0, reason_)
  else if (is_frozen_ && overridden)%bool then
    ret ("ALLOW", 0, "Frozen but overridden: " ++ override_reason_text)
  else ret ("ALLOW", 0, reason_).

Definition iso_or_empty (d : option aware) : string :=
  match d with
  | Some a => dt_isoformat L a
  | None => ""
  end.

(** Lines 213-225, [# 5. Outputs]. *)
Definition outputs (env_name : string) (now_local now_utc : aware)
    (ws : window_state) (final_decision reason_ : string)
    (overridden : bool) (override_reason_text : string) : M unit :=
  set_output "is_frozen" (bool_str (is_frozen ws)) ;;;
  set_output "decision" final_decision ;;;
  set_output "environment" env_name ;;;
  set_output "now_local" (dt_isoformat L now_local) ;;;
  set_output "now_utc" (dt_isoformat L now_utc) ;;;
  set_output "window_type" (window_type ws) ;;;
  set_output "window_name" (window_name ws) ;;;
  set_output "reason" reason_ ;;;
  set_output "freeze_start" (iso_or_empty (active_start ws)) ;;;
  set_output "freeze_end" (iso_or_empty (active_end ws)) ;;;
  set_output "overridden" (bool_str overridden) ;;;
  set_output "override_reason" override_reason_text.

(** Lines 227-240, [# 6. Summary]. *)
Definition summary (env_name : string) (now_local now_utc : aware)
    (ws : window_state) (final_decision override_reason_text : string) : M unit :=
  let window_details_str :=
    match active_start ws, active_end ws with
    | Some s, Some e =>
        "- **Start:** " ++ dt_str L s ++ nl ++ "- **End:** " ++ dt_str L e
    | _, _ => ""
    end in
  write_summary env_name
    (dt_strftime L "%Y-%m-%d %H:%M:%S %Z" now_local)
    (dt_strftime L "%Y-%m-%d %H:%M:%S UTC" now_utc)
    (is_frozen ws) final_decision window_details_str override_reason_text.

(** Lines 54-245. *)
Definition main : M unit :=
  (* 1. Inputs *)
  let env_name := get_input "environment" in
  (if negb (truthy env_name)
   then print "::error::Input 'environment' is required." ;;; sys_exit 1
   else ret tt) ;;;
  let env_name := str_of env_name in
  let behavior := str_lower L (get_input_or "behavior" "block") in
  let tz_str := get_input_or "timezone" "UTC" in
  let freeze_start_str := get_input "freeze_start" in
  let freeze_end_str := get_input "freeze_end" in
  let rrule_str := get_input "rrule" in
  let duration_mins := get_input "duration_minutes" in
  let allow_override_label := get_input "allow_override_label" in
  let allow_override_actor := get_input "allow_override_actor" in
  let fail_msg :=
    get_input_or "fail_message" "Release freeze is active. Deployment prevented." in
  timezone <- parse_timezone tz_str ;;
  let now_utc := {| wall := clock W; utcoffset := 0 |} in
  let now_local := astimezone timezone (clock W) in
  print ("Checking freeze for environment: " ++ env_name) ;;;
  print ("Current time: " ++ dt_str L now_local ++ " (" ++ tz_str ++ ") / "
           ++ dt_str L now_utc ++ " (UTC)") ;;;
  (* 2. Freeze Logic *)
  ws <- freeze_logic timezone now_local
          freeze_start_str freeze_end_str rrule_str duration_mins ;;
  (* 3. Override Logic *)
  ov <- override_logic (is_frozen ws) allow_override_label allow_override_actor ;;
  let overridden := fst ov in
  let override_reason_text := snd ov in
  (* 4. Decision *)
  d <- decision (is_frozen ws) overridden behavior fail_msg (reason ws)
         override_reason_text ;;
  let final_decision := fst (fst d) in
  let exit_code := snd (fst d) in
  let reason_ := snd d in
  (* 5. Outputs *)
  outputs env_name now_local now_utc ws final_decision reason_
    overridden override_reason_text ;;;
  (* 6. Summary *)
  summary env_name now_local now_utc ws final_decision override_reason_text ;;;
  (if negb (exit_code =? 0) then print ("::error::" ++ fail_msg) else ret tt) ;;;
  sys_exit exit_code.

End Program.

(** ** Notions used to state the properties *)

(** [logs m o lines]: from any state, [m] ends with the outcome [o], has
    printed [lines] and has written nothing to a file. *)
Definition logs {A : Type} (m : M A) (o : outcome A) (lines : list string) : Prop :=
  forall st,
    m st = (o, {| stdout := stdout st ++ lines; written := written st |}).

(** Two computations that cannot be told apart by their outcome and by what
    they write to files; what they print may differ. *)
Definition same_run {A : Type} (m1 m2 : M A) : Prop :=
  forall st1 st2,
    written st1 = written st2 ->
    fst (m1 st1) = fst (m2 st2)
    /\ written (snd (m1 st1)) = written (snd (m2 st2)).

(** The world in which the variable [k] is not set. *)
Definition unset (k : string) (W : World) : World :=
  {| environ := fun x => if String.eqb x k then None else environ W x;
     clock := clock W;
     path_exists := path_exists W;
     read_json := read_json W |}.

(** The guard of line 168 and the one of line 170. *)
Definition label_checked (W : World) (label : option string) : bool :=
  (truthy label && opt_eqb (environ W "GITHUB_EVENT_NAME") "pull_request")%bool.

Definition payload_found (W : World) : bool :=
  (truthy (environ W "GITHUB_EVENT_PATH")
   && path_exists W (str_of (environ W "GITHUB_EVENT_PATH")))%bool.

(** The two texts that [override_reason_text] can receive. *)
Definition label_reason (label : option string) : string :=
  "PR label '" ++ str_of label ++ "' matched".

Definition actor_reason (W : World) : string :=
  "Actor '" ++ str_of (environ W "GITHUB_ACTOR") ++ "' is allowed to override".

(** What lines 214-225 append to the file [path]. *)
Definition output_events (L : Libs) (path env_name : string) (now_local now_utc : aware)
    (ws : window_state) (final_decision reason_ : string)
    (overridden : bool) (override_reason_text : string) : list (string * string) :=
  [ (path, "is_frozen=" ++ bool_str (is_frozen ws) ++ nl);
    (path, "decision=" ++ final_decision ++ nl);
    (path, "environment=" ++ env_name ++ nl);
    (path, "now_local=" ++ dt_isoformat L now_local ++ nl);
    (path, "now_utc=" ++ dt_isoformat L now_utc ++ nl);
    (path, "window_type=" ++ window_type ws ++ nl);
    (path, "window_name=" ++ window_name ws ++ nl);
    (path, "reason=" ++ reason_ ++ nl);
    (path, "freeze_start=" ++ iso_or_empty L (active_start ws) ++ nl);
    (path, "freeze_end=" ++ iso_or_empty L (active_end ws) ++ nl);
    (path, "overridden=" ++ bool_str overridden ++ nl);
    (path, "override_reason=" ++ override_reason_text ++ nl) ].

(** Lines 213-245: what [main] does once the decision is taken. *)
Definition finish (L : Libs) (W : World) (env_name : string) (now_local now_utc : aware)
    (ws : window_state) (ov : bool * string) (d : string * Z * string)
    (fail_msg : string) : M unit :=
  outputs L W env_name now_local now_utc ws (fst (fst d)) (snd d) (fst ov) (snd ov) ;;;
  summary L W env_name now_local now_utc ws (fst (fst d)) (snd ov) ;;;
  (if negb (snd (fst d) =? 0) then print ("::error::" ++ fail_msg) else ret tt) ;;;
  sys_exit (snd (fst d)).

(** The summary is written, or is switched off. *)
Definition summary_ready (L : Libs) (W : World) : bool :=
  (negb (String.eqb (str_lower L (get_input_or L W "summary" "true")) "true")
   || truthy_path (environ W "GITHUB_STEP_SUMMARY"))%bool.

(** The run from the empty state writes [name=value] to the file that
    [GITHUB_OUTPUT] names. *)
Definition reports (L : Libs) (W : World) (name value : string) : Prop :=
  exists path,
    environ W "GITHUB_OUTPUT" = Some path
    /\ In (path, name ++ "=" ++ value ++ nl) (written (snd (main L W init))).

(** The run gets past its first inputs: the environment is named, the
    timezone is known to [pytz] as [tz], and [GITHUB_OUTPUT] names [path]. *)
Record ready (L : Libs) (W : World) (tz : tzinfo) (path : string) : Prop := {
  environment_named : truthy (get_input L W "environment") = true;
  timezone_known : pytz_timezone L (get_input_or L W "timezone" "UTC") = Some tz;
  output_named : environ W "GITHUB_OUTPUT" = Some path
}.

(** [now_local.replace(tzinfo=None)] in the run of [W] with timezone [tz]. *)
Definition now_naive (W : World) (tz : tzinfo) : Z :=
  wall (astimezone tz (clock W)).

(** A fixed window is configured and its two bounds parse to [start] and
    [end_], localized where the string carried no zone. *)
Definition fixed_bounds (L : Libs) (W : World) (tz : tzinfo) (start end_ : aware) : Prop :=
  truthy (get_input L W "freeze_start") = true
  /\ truthy (get_input L W "freeze_end") = true
  /\ truthy (get_input L W "rrule") = false
  /\ exists dt_start dt_end,
       parser_parse L (str_of (get_input L W "freeze_start")) = Ok dt_start
       /\ parser_parse L (str_of (get_input L W "freeze_end")) = Ok dt_end
       /\ localize_if_naive tz dt_start = Ok start
       /\ localize_if_naive tz dt_end = Ok end_.

(** A recurring window is configured: its rule parses, its duration reads as
    [minutes], and the rule gives [last] as its last occurrence up to now
    ([None] when there is none). *)
Definition recurrence (L : Libs) (W : World) (tz : tzinfo)
    (last : option Z) (minutes : Z) : Prop :=
  truthy (get_input L W "freeze_start") = false
  /\ truthy (get_input L W "freeze_end") = false
  /\ truthy (get_input L W "rrule") = true
  /\ truthy (get_input L W "duration_minutes") = true
  /\ builtin_int L (str_of (get_input L W "duration_minutes")) = Ok minutes
  /\ exists rule,
       rrulestr L (str_of (get_input L W "rrule")) (now_naive W tz) = Ok rule
       /\ before rule (now_naive W tz) true = Ok last.

(** The fatal input errors of section 7 of the specification, as the
    conditions under which the source meets them. *)
Inductive fatal_input (L : Libs) (W : World) : Prop :=
| missing_environment :
    truthy (get_input L W "environment") = false -> fatal_input L W
| unrecognized_timezone :
    pytz_timezone L (get_input_or L W "timezone" "UTC") = None -> fatal_input L W
| both_windows :
    ((truthy (get_input L W "freeze_start") || truthy (get_input L W "freeze_end"))
     && truthy (get_input L W "rrule"))%bool = true ->
    fatal_input L W
| rrule_without_duration :
    truthy (get_input L W "rrule") = true ->
    truthy (get_input L W "duration_minutes") = false ->
    fatal_input L W
| unparseable_dates msg :
    truthy (get_input L W "freeze_start") = true ->
    truthy (get_input L W "freeze_end") = true ->
    parser_parse L (str_of (get_input L W "freeze_start")) = Raise msg
    \/ parser_parse L (str_of (get_input L W "freeze_end")) = Raise msg ->
    fatal_input L W
| unparseable_rule :
    truthy (get_input L W "rrule") = true ->
    (forall dtstart, exists msg,
        rrulestr L (str_of (get_input L W "rrule")) dtstart = Raise msg) ->
    fatal_input L W.

(** The event payload cannot be used: the file is not there, or reading it,
    parsing it or walking to the label names raises. *)
Definition payload_failure (W : World) (label : option string) : Prop :=
  payload_found W = false
  \/ exists msg,
       label_in_payload W (str_of (environ W "GITHUB_EVENT_PATH")) (str_of label)
       = Raise msg.

(** The freeze logic of the run returns with a frozen window. *)
Definition frozen_run (L : Libs) (W : World) (tz : tzinfo) : Prop :=
  exists ws,
    logs (freeze_logic L tz (astimezone tz (clock W))
            (get_input L W "freeze_start") (get_input L W "freeze_end")
            (get_input L W "rrule") (get_input L W "duration_minutes"))
      (Normal ws) []
    /\ is_frozen ws = true.

(** A naive value that [datetime] can hold. *)
Definition representable (t : Z) : Prop := 0 <= t <= datetime_max.

(** The exit of the run from the empty state. *)
Definition exit_of (L : Libs) (W : World) : outcome unit := fst (main L W init).

(** Two worlds that [main] cannot tell apart outside its freeze logic and
    its override logic. *)
Record same_setting (L : Libs) (W1 W2 : World) : Prop := {
  same_clock : clock W1 = clock W2;
  same_environment : get_input L W1 "environment" = get_input L W2 "environment";
  same_behavior :
    forall d, get_input_or L W1 "behavior" d = get_input_or L W2 "behavior" d;
  same_timezone :
    forall d, get_input_or L W1 "timezone" d = get_input_or L W2 "timezone" d;
  same_fail_message :
    forall d, get_input_or L W1 "fail_message" d = get_input_or L W2 "fail_message" d;
  same_summary :
    forall d, get_input_or L W1 "summary" d = get_input_or L W2 "summary" d;
  same_output : environ W1 "GITHUB_OUTPUT" = environ W2 "GITHUB_OUTPUT";
  same_step_summary : environ W1 "GITHUB_STEP_SUMMARY" = environ W2 "GITHUB_STEP_SUMMARY"
}.

(** How a run can end, with what it has written by then. *)
Inductive ending (L : Libs) (W : World) : Prop :=
| ends_fatal :
    exit_of L W = SysExit 1 ->
    written (snd (main L W init)) = [] ->
    ending L W
| ends_without_output :
    environ W "GITHUB_OUTPUT" = None ->
    exit_of L W = Uncaught "KeyError: 'GITHUB_OUTPUT'" ->
    written (snd (main L W init)) = [] ->
    ending L W
| ends_reported tz path ws ov d l2 l3 evs :
    ready L W tz path ->
    logs (freeze_logic L tz (astimezone tz (clock W))
            (get_input L W "freeze_start") (get_input L W "freeze_end")
            (get_input L W "rrule") (get_input L W "duration_minutes"))
      (Normal ws) [] ->
    logs (override_logic W (is_frozen ws) (get_input L W "allow_override_label")
            (get_input L W "allow_override_actor"))
      (Normal ov) l2 ->
    logs (decision (is_frozen ws) (fst ov) (str_lower L (get_input_or L W "behavior" "block"))
            (get_input_or L W "fail_message"
               "Release freeze is active. Deployment prevented.")
            (reason ws) (snd ov))
      (Normal d) l3 ->
    written (snd (main L W init))
    = (output_events L path (str_of (get_input L W "environment"))
         (astimezone tz (clock W)) {| wall := clock W; utcoffset := 0 |} ws
         (fst (fst d)) (snd d) (fst ov) (snd ov) ++ evs)%list ->
    (List.length evs <= 1)%nat ->
    (forall q t, In (q, t) evs ->
       environ W "GITHUB_STEP_SUMMARY" = Some q /\ exists r, t = nl ++ r) ->
    (summary_ready L W = true /\ exit_of L W = SysExit (snd (fst d))
     \/ summary_ready L W = false
        /\ exit_of L W = Uncaught "KeyError: 'GITHUB_STEP_SUMMARY'" /\ evs = []) ->
    ending L W.

(** The window variables after lines 105-110 and after lines 150-156. *)
Definition frozen_fixed (dt_start dt_end : aware) : window_state :=
  {| is_frozen := true;
     window_type := "FIXED";
     window_name := "Fixed Freeze Window";
     active_start := Some dt_start;
     active_end := Some dt_end;
     reason := "Current time is within fixed freeze window" |}.

Definition frozen_recurring (a_start a_end : aware) : window_state :=
  {| is_frozen := true;
     window_type := "RRULE";
     window_name := "Recurring Freeze Window";
     active_start := Some a_start;
     active_end := Some a_end;
     reason := "Current time is within recurring freeze window" |}.

(** The names of the outputs, in the order of lines 214-225. *)
Definition output_keys : list string :=
  ["is_frozen"; "decision"; "environment"; "now_local"; "now_utc"; "window_type";
   "window_name"; "reason"; "freeze_start"; "freeze_end"; "overridden";
   "override_reason"].

(** The part of a written line that precedes its first [=]. *)
Fixpoint key_of (text : string) : string :=
  match text with
  | EmptyString => EmptyString
  | String c r => if Ascii.eqb c "=" then EmptyString else String c (key_of r)
  end.

(** *** The decision table of the specification (section 4.4) *)

Inductive Behavior : Type := Block | Warn | Allow | Undefined.

Inductive Decision : Type := DAllow | DWarn | DBlock.

Definition behavior_of (s : string) : Behavior :=
  if String.eqb s "block" then Block
  else if String.eqb s "warn" then Warn
  else if String.eqb s "allow" then Allow
  else Undefined.

Definition decision_name (d : Decision) : string :=
  match d with
  | DAllow => "ALLOW"
  | DWarn => "WARN"
  | DBlock => "BLOCK"
  end.

(** The rows of the table, with the row for an undefined behaviour. *)
Definition table_4_4 (isFrozen overridden : bool) (b : Behavior) : Decision * Z :=
  match isFrozen, overridden, b with
  | false, _, _ => (DAllow, 0)
  | true, true, _ => (DAllow, 0)
  | true, false, Block => (DBlock, 1)
  | true, false, Warn => (DWarn, 0)
  | true, false, Allow => (DAllow, 0)
  | true, false, Undefined => (DAllow, 0)
  end.

(** ** A concrete world: the scenarios of [tests/test_entrypoint.py] *)

Module Demo.

Definition utc : tzinfo :=
  {| tz_utcoffset := fun _ => 0; tz_localize := fun _ => Ok 0 |}.

Definition known_zones (name : string) : option tzinfo :=
  if String.eqb name "UTC" then Some utc else None.

Definition known_dates (s : string) : result datetime :=
  if String.eqb s "2023-12-24T00:00" then Ok (Naive (at_time 2023 12 24 0 0))
  else if String.eqb s "2023-12-26T00:00" then Ok (Naive (at_time 2023 12 26 0 0))
  else Raise ("Unknown string format: " ++ s).

Definition usec_per_week : Z := 7 * usec_per_day.

(** Monday is 0, as [datetime.weekday]. *)
Definition weekday (t : Z) : Z := (t / usec_per_day) mod 7.

(** [FREQ=WEEKLY;BYDAY=SA] from [dtstart]: the occurrences are [first],
    [first] plus one week, and so on. *)
Definition weekly_saturday (dtstart : Z) : rrule_obj :=
  let start := dtstart - dtstart mod 1000000 in
  let first := start + ((5 - weekday start) mod 7) * usec_per_day in
  {| before := fun dt inc =>
       let last := if inc then dt else dt - 1 in
       if last <? first then Ok None
       else Ok (Some (first + ((last - first) / usec_per_week) * usec_per_week)) |}.

Definition known_rules (s : string) (dtstart : Z) : result rrule_obj :=
  if String.eqb s "FREQ=WEEKLY;BYDAY=SA" then Ok (weekly_saturday dtstart)
  else if String.eqb s "DTSTART:20231104T000000 RRULE:FREQ=WEEKLY;BYDAY=SA"
       then Ok (weekly_saturday (at_time 2023 11 4 0 0))
       else Raise "unknown parameter name".

(** A stand-in for the formatting methods: the name of the method.  The
    scenarios are written in ASCII, so that the two Unicode maps are never
    asked. *)
Definition libs : Libs :=
  {| pytz_timezone := known_zones;
     parser_parse := known_dates;
     rrulestr := known_rules;
     dt_isoformat := fun _ => "<isoformat>";
     dt_str := fun _ => "<str>";
     dt_strftime := fun fmt _ => fmt;
     builtin_int := PyInt.int;
     unicode_lower := lower;
     unicode_upper := upper |}.

Fixpoint getenv (vars : list (string * string)) (k : string) : option string :=
  match vars with
  | [] => None
  | (k', v) :: r => if String.eqb k k' then Some v else getenv r k
  end.

Definition labelled : json :=
  JObj [("pull_request",
         JObj [("labels", JArr [JObj [("name", JStr "hotfix-override")];
                                JObj [("name", JStr "bug")]])])].

(** [setUp] of the tests, the variables of one test, the mocked clock and
    the event file that [test_override_by_label] writes. *)
Definition world (vars : list (string * string)) (now : Z) : World :=
  {| environ := getenv (vars ++ [("GITHUB_OUTPUT", "github_output.txt");
                                 ("GITHUB_STEP_SUMMARY", "github_summary.txt")]);
     clock := now;
     path_exists := fun p => String.eqb p "event.json";
     read_json := fun p =>
       if String.eqb p "event.json" then Ok labelled
       else Raise "No such file or directory" |}.

(** A world with nothing but the given variables, and one that reads the
    given payload from the event file. *)
Definition bare_world (vars : list (string * string)) (now : Z) : World :=
  {| environ := getenv vars;
     clock := now;
     path_exists := fun p => String.eqb p "event.json";
     read_json := fun p =>
       if String.eqb p "event.json" then Ok labelled
       else Raise "No such file or directory" |}.

Definition payload_world (payload : json) : World :=
  {| environ := getenv [];
     clock := 0;
     path_exists := fun p => String.eqb p "event.json";
     read_json := fun _ => Ok payload |}.

(** A payload one of whose labels has no [name]. *)
Definition nameless : json :=
  JObj [("pull_request",
         JObj [("labels", JArr [JObj [("id", JNum 7)];
                                JObj [("name", JStr "hotfix-override")]])])].

Definition christmas : Z := at_time 2023 12 25 10 0.
Definition saturday : Z := at_time 2023 11 4 12 0.
Definition friday : Z := at_time 2023 11 3 12 0.

Definition fixed_vars : list (string * string) :=
  [("INPUT_ENVIRONMENT", "production");
   ("INPUT_FREEZE_START", "2023-12-24T00:00");
   ("INPUT_FREEZE_END", "2023-12-26T00:00")].

Definition weekend_vars (duration : string) : list (string * string) :=
  [("INPUT_ENVIRONMENT", "production");
   ("INPUT_RRULE", "FREQ=WEEKLY;BYDAY=SA");
   ("INPUT_DURATION_MINUTES", duration)].

Definition run (vars : list (string * string)) (now : Z) : outcome unit * state :=
  main libs (world vars now) init.

Definition output_file : string := "github_output.txt".

Definition midnight (y m d : Z) : aware :=
  {| wall := at_time y m d 0 0; utcoffset := 0 |}.

(** What the freeze logic leaves for [fixed_vars] at [christmas]. *)
Definition christmas_window : window_state :=
  {| is_frozen := true;
     window_type := "FIXED";
     window_name := "Fixed Freeze Window";
     active_start := Some (midnight 2023 12 24);
     active_end := Some (midnight 2023 12 26);
     reason := "Current time is within fixed freeze window" |}.

(** [test_override_by_actor] and [test_override_by_label]. *)
Definition actor_vars : list (string * string) :=
  [("INPUT_ALLOW_OVERRIDE_ACTOR", "maintainer_user");
   ("GITHUB_ACTOR", "maintainer_user")].

Definition label_vars (event_path : string) : list (string * string) :=
  [("INPUT_ALLOW_OVERRIDE_LABEL", "hotfix-override");
   ("GITHUB_EVENT_NAME", "pull_request");
   ("GITHUB_EVENT_PATH", event_path)].

(** The weekly rule with a start of its own. *)
Definition anchored_vars : list (string * string) :=
  [("INPUT_ENVIRONMENT", "production");
   ("INPUT_RRULE", "DTSTART:20231104T000000 RRULE:FREQ=WEEKLY;BYDAY=SA");
   ("INPUT_DURATION_MINUTES", "1440")].

Definition bogus_rule_vars : list (string * string) :=
  [("INPUT_ENVIRONMENT", "production");
   ("INPUT_RRULE", "FREQ=BOGUS");
   ("INPUT_DURATION_MINUTES", "60")].

Definition inverted_vars : list (string * string) :=
  [("INPUT_ENVIRONMENT", "production");
   ("INPUT_FREEZE_START", "2023-12-26T00:00");
   ("INPUT_FREEZE_END", "2023-12-24T00:00")].

Definition start_only_vars : list (string * string) :=
  [("INPUT_ENVIRONMENT", "production");
   ("INPUT_FREEZE_START", "2023-12-24T00:00")].


End Demo.

(** ** Computations that only print *)

Section Logs.

Context {A B : Type}.

Lemma logs_ret (a : A) : logs (ret a) (Normal a) [].
Proof.
  intros [out wr]. unfold ret. cbn. now rewrite app_nil_r.
Qed.

Lemma logs_exit (c : Z) : logs (@sys_exit A c) (SysExit c) [].
Proof.
  intros [out wr]. unfold sys_exit. cbn. now rewrite app_nil_r.
Qed.

Lemma logs_bind (m : M A) (k : A -> M B) a o l1 l2 :
  logs m (Normal a) l1 -> logs (k a) o l2 -> logs (bind m k) o (l1 ++ l2)%list.
Proof.
  intros Hm Hk st. unfold bind. rewrite Hm, Hk. cbn. now rewrite app_assoc.
Qed.

Lemma logs_bind_exit (m : M A) (k : A -> M B) c l :
  logs m (SysExit c) l -> logs (bind m k) (SysExit c) l.
Proof.
  intros Hm st. unfold bind. now rewrite Hm.
Qed.

Lemma logs_fun (m : M A) o o' l l' :
  logs m o l -> logs m o' l' -> o = o' /\ l = l'.
Proof.
  intros H H'. specialize (H init). rewrite (H' init) in H.
  inversion H. now split.
Qed.

End Logs.

Lemma logs_print (line : string) : logs (print line) (Normal tt) [line].
Proof. intros st. reflexivity. Qed.

Lemma logs_fail {A : Type} (line : string) (c : Z) :
  logs (print line ;;; @sys_exit A c) (SysExit c) [line].
Proof.
  change [line] with ([line] ++ [])%list.
  eapply logs_bind; [apply logs_print | apply logs_exit].
Qed.

Lemma logs_then {A : Type} (m : M A) (line : string) o l :
  logs m o l -> logs (print line ;;; m) o (line :: l).
Proof.
  intros H. change (line :: l) with ([line] ++ l)%list.
  eapply logs_bind; [apply logs_print | exact H].
Qed.

Lemma logs_skip {A : Type} (m : M A) o l :
  logs m o l -> logs (ret tt ;;; m) o l.
Proof.
  intros H. change l with ([] ++ l)%list.
  eapply logs_bind; [apply logs_ret | exact H].
Qed.

Lemma bind_logs {A B : Type} (m : M A) (k : A -> M B) a l st :
  logs m (Normal a) l ->
  bind m k st = k a {| stdout := stdout st ++ l; written := written st |}.
Proof.
  intros H. unfold bind. now rewrite H.
Qed.

Lemma bind_normal {A B : Type} (m : M A) (k : A -> M B) a st st' :
  m st = (Normal a, st') -> bind m k st = k a st'.
Proof.
  intros H. unfold bind. now rewrite H.
Qed.

Lemma bind_sysexit {A B : Type} (m : M A) (k : A -> M B) c st st' :
  m st = (SysExit c, st') -> bind m k st = (SysExit c, st').
Proof.
  intros H. unfold bind. now rewrite H.
Qed.

Lemma bind_uncaught {A B : Type} (m : M A) (k : A -> M B) e st st' :
  m st = (Uncaught e, st') -> bind m k st = (Uncaught e, st').
Proof.
  intros H. unfold bind. now rewrite H.
Qed.

Create HintDb logs.
#[export] Hint Resolve logs_ret logs_exit logs_print logs_fail logs_then logs_skip
  logs_bind_exit : logs.

(** ** Runs that differ only in what they print *)

Section SameRun.

Context {A B : Type}.

Lemma same_run_logs (m1 m2 : M A) o l1 l2 :
  logs m1 o l1 -> logs m2 o l2 -> same_run m1 m2.
Proof.
  intros H1 H2 st1 st2 E. rewrite H1, H2. cbn. now split.
Qed.

Lemma same_run_bind (m1 m2 : M A) (k1 k2 : A -> M B) :
  same_run m1 m2 -> (forall a, same_run (k1 a) (k2 a)) ->
  same_run (bind m1 k1) (bind m2 k2).
Proof.
  intros Hm Hk st1 st2 E. unfold bind.
  destruct (Hm st1 st2 E) as [Ho Hw].
  destruct (m1 st1) as [o1 s1], (m2 st2) as [o2 s2]. cbn in Ho, Hw. subst o2.
  destruct o1 as [a | c | e]; cbn; auto. now apply Hk.
Qed.


Lemma same_run_append path text : same_run (append_file path text) (append_file path text).
Proof.
  intros st1 st2 E. cbn. now rewrite E.
Qed.

Lemma same_run_raise exc : same_run (@raise A exc) (@raise A exc).
Proof.
  intros st1 st2 E. cbn. now split.
Qed.

End SameRun.

(** ** The phases of [main], one case at a time *)

(** Settles a guard of the source once the truth values of the inputs are
    known. *)
Ltac guards :=
  repeat match goal with
         | H : truthy _ = _ |- _ => rewrite H
         end;
  reflexivity.

Section Phases.

Variable L : Libs.
Variable W : World.

Section Freeze.

Variable tz : tzinfo.
Variable now_local : aware.
Variables fs fe rr dur : option string.

Local Abbreviation both := ((truthy fs || truthy fe) && truthy rr)%bool.

Lemma freeze_both :
  both = true ->
  logs (freeze_logic L tz now_local fs fe rr dur) (SysExit 1)
    ["::error::Cannot specify both fixed window (freeze_start/end) and recurring window (rrule)."].
Proof.
  intros H. unfold freeze_logic.  rewrite H. auto with logs.
Qed.

Lemma freeze_fixed ws :
  both = false -> (truthy fs && truthy fe)%bool = true ->
  fixed_window L tz now_local (str_of fs) (str_of fe) = Ok ws ->
  logs (freeze_logic L tz now_local fs fe rr dur) (Normal ws) [].
Proof.
  intros H1 H2 H3. unfold freeze_logic.  rewrite H1, H2, H3.
  auto with logs.
Qed.

Lemma freeze_fixed_raise msg :
  both = false -> (truthy fs && truthy fe)%bool = true ->
  fixed_window L tz now_local (str_of fs) (str_of fe) = Raise msg ->
  logs (freeze_logic L tz now_local fs fe rr dur) (SysExit 1)
    ["::error::Failed to parse fixed window dates: " ++ msg].
Proof.
  intros H1 H2 H3. unfold freeze_logic.  rewrite H1, H2, H3.
  auto with logs.
Qed.

Lemma freeze_no_duration :
  both = false -> (truthy fs && truthy fe)%bool = false ->
  truthy rr = true -> truthy dur = false ->
  logs (freeze_logic L tz now_local fs fe rr dur) (SysExit 1)
    ["::error::Input 'duration_minutes' is required when using 'rrule'."].
Proof.
  intros H1 H2 H3 H4. unfold freeze_logic.  rewrite H1, H2, H3, H4.
  cbn [negb]. auto with logs.
Qed.

Lemma freeze_recurring ws :
  both = false -> (truthy fs && truthy fe)%bool = false ->
  truthy rr = true -> truthy dur = true ->
  recurring_window L tz now_local (str_of rr) (str_of dur) = Ok ws ->
  logs (freeze_logic L tz now_local fs fe rr dur) (Normal ws) [].
Proof.
  intros H1 H2 H3 H4 H5. unfold freeze_logic. 
  rewrite H1, H2, H3, H4, H5. cbn [negb]. auto with logs.
Qed.

Lemma freeze_recurring_raise msg :
  both = false -> (truthy fs && truthy fe)%bool = false ->
  truthy rr = true -> truthy dur = true ->
  recurring_window L tz now_local (str_of rr) (str_of dur) = Raise msg ->
  logs (freeze_logic L tz now_local fs fe rr dur) (SysExit 1)
    ["::error::Failed to process rrule: " ++ msg].
Proof.
  intros H1 H2 H3 H4 H5. unfold freeze_logic. 
  rewrite H1, H2, H3, H4, H5. cbn [negb]. auto with logs.
Qed.

Lemma freeze_nothing :
  (truthy fs && truthy fe)%bool = false -> truthy rr = false ->
  logs (freeze_logic L tz now_local fs fe rr dur) (Normal no_window) [].
Proof.
  intros H2 H3. unfold freeze_logic. rewrite H2, H3, andb_false_r.
  auto with logs.
Qed.

(** The freeze logic either exits with status 1 or yields the window
    variables without printing. *)
Lemma freeze_logic_cases :
  (exists line, logs (freeze_logic L tz now_local fs fe rr dur) (SysExit 1) [line])
  \/ (exists ws, logs (freeze_logic L tz now_local fs fe rr dur) (Normal ws) []).
Proof.
  destruct (fixed_window L tz now_local (str_of fs) (str_of fe)) eqn:Hfix;
    destruct (recurring_window L tz now_local (str_of rr) (str_of dur)) eqn:Hrec;
    destruct (truthy fs) eqn:Hfs; destruct (truthy fe) eqn:Hfe;
    destruct (truthy rr) eqn:Hr; destruct (truthy dur) eqn:Hd;
    first
      [ left; eexists;
        solve [ eapply freeze_both; guards
              | eapply freeze_fixed_raise; [guards | guards | eassumption]
              | eapply freeze_no_duration; guards
              | eapply freeze_recurring_raise; [guards .. | eassumption] ]
      | right; eexists;
        solve [ eapply freeze_fixed; [guards | guards | eassumption]
              | eapply freeze_recurring; [guards .. | eassumption]
              | eapply freeze_nothing; guards ] ].
Qed.

End Freeze.

Section Override.

Variables label actor : option string.

Local Abbreviation checked := (label_checked W label).
Local Abbreviation found := (payload_found W).
Local Abbreviation by_label := (label_reason label).
Local Abbreviation by_actor := (actor_reason W).

Lemma label_not_checked :
  checked = false -> logs (label_override W label) (Normal (false, "")) [].
Proof.
  unfold label_checked, label_override. intros ->. auto with logs.
Qed.

Lemma label_no_payload :
  checked = true -> found = false ->
  logs (label_override W label) (Normal (false, ""))
    ["::warning::GITHUB_EVENT_PATH not found, skipping label check."].
Proof.
  unfold label_checked, payload_found, label_override. intros -> ->.
  change ([?x]) with ([x] ++ [])%list.
  eapply logs_bind; auto with logs.
Qed.

Lemma label_payload_raise msg :
  checked = true -> found = true ->
  label_in_payload W (str_of (environ W "GITHUB_EVENT_PATH")) (str_of label) = Raise msg ->
  logs (label_override W label) (Normal (false, ""))
    ["::warning::Failed to read event payload for label check: " ++ msg].
Proof.
  unfold label_checked, payload_found, label_override. intros -> -> ->.
  change ([?x]) with ([x] ++ [])%list.
  eapply logs_bind; auto with logs.
Qed.

Lemma label_absent :
  checked = true -> found = true ->
  label_in_payload W (str_of (environ W "GITHUB_EVENT_PATH")) (str_of label) = Ok false ->
  logs (label_override W label) (Normal (false, "")) [].
Proof.
  unfold label_checked, payload_found, label_override. intros -> -> ->.
  auto with logs.
Qed.

Lemma label_present :
  checked = true -> found = true ->
  label_in_payload W (str_of (environ W "GITHUB_EVENT_PATH")) (str_of label) = Ok true ->
  logs (label_override W label) (Normal (true, by_label))
    ["Override applied: " ++ by_label].
Proof.
  unfold label_checked, payload_found, label_override. intros -> -> ->.
  cbv zeta. change ([?x]) with ([x] ++ [])%list.
  eapply logs_bind; auto with logs.
Qed.

Lemma label_override_cases :
  exists ov lines,
    logs (label_override W label) (Normal ov) lines
    /\ (ov = (false, "") \/ ov = (true, by_label)).
Proof.
  destruct checked eqn:Hc.
  2:{ do 2 eexists. split; [now apply label_not_checked | now left]. }
  destruct found eqn:Hp.
  2:{ do 2 eexists. split; [now apply label_no_payload | now left]. }
  destruct (label_in_payload W (str_of (environ W "GITHUB_EVENT_PATH")) (str_of label))
    as [[|]|msg] eqn:Hl.
  - do 2 eexists. split; [now apply label_present | now right].
  - do 2 eexists. split; [now apply label_absent | now left].
  - do 2 eexists. split; [eapply label_payload_raise; eassumption | now left].
Qed.

(** Line 186: the actor is looked at only while nothing has overridden. *)
Lemma actor_skipped txt :
  logs (actor_override W actor (true, txt)) (Normal (true, txt)) [].
Proof.
  unfold actor_override. cbn [fst negb]. rewrite andb_false_r. auto with logs.
Qed.

Lemma actor_not_configured ov :
  truthy actor = false -> logs (actor_override W actor ov) (Normal ov) [].
Proof.
  unfold actor_override. intros ->. cbn [andb]. auto with logs.
Qed.

Lemma actor_differs txt :
  opt_eqb (environ W "GITHUB_ACTOR") (str_of actor) = false ->
  logs (actor_override W actor (false, txt)) (Normal (false, txt)) [].
Proof.
  unfold actor_override. intros ->.
  destruct (truthy actor); cbn [fst negb andb]; auto with logs.
Qed.

Lemma actor_matches txt :
  truthy actor = true ->
  opt_eqb (environ W "GITHUB_ACTOR") (str_of actor) = true ->
  logs (actor_override W actor (false, txt)) (Normal (true, by_actor))
    ["Override applied: " ++ by_actor].
Proof.
  unfold actor_override. intros -> ->. cbn [fst negb andb]. cbv zeta.
  change ([?x]) with ([x] ++ [])%list.
  eapply logs_bind; auto with logs.
Qed.

Lemma actor_override_cases ov :
  exists ov' lines, logs (actor_override W actor ov) (Normal ov') lines.
Proof.
  destruct ov as [[|] txt].
  { do 2 eexists. apply actor_skipped. }
  destruct (truthy actor) eqn:Ha.
  2:{ do 2 eexists. now apply actor_not_configured. }
  destruct (opt_eqb (environ W "GITHUB_ACTOR") (str_of actor)) eqn:He.
  - do 2 eexists. now apply actor_matches.
  - do 2 eexists. now apply actor_differs.
Qed.

Lemma override_not_frozen :
  logs (override_logic W false label actor) (Normal (false, "")) [].
Proof. unfold override_logic. auto with logs. Qed.

Lemma override_frozen ov ov' l1 l2 :
  logs (label_override W label) (Normal ov) l1 ->
  logs (actor_override W actor ov) (Normal ov') l2 ->
  logs (override_logic W true label actor) (Normal ov') (l1 ++ l2).
Proof.
  intros H1 H2. unfold override_logic. eapply logs_bind; eassumption.
Qed.

(** The override logic always returns, and with [overridden] set only
    when it was entered for a frozen window. *)
Lemma override_logic_cases frozen :
  exists ov lines,
    logs (override_logic W frozen label actor) (Normal ov) lines
    /\ (fst ov = true -> frozen = true).
Proof.
  destruct frozen.
  - destruct label_override_cases as (ov & l1 & H1 & _).
    destruct (actor_override_cases ov) as (ov' & l2 & H2).
    exists ov', (l1 ++ l2)%list. split; [now apply override_frozen with ov | reflexivity].
  - exists (false, ""), []. split; [apply override_not_frozen | discriminate].
Qed.

End Override.

Section Decide.

Variables fail_msg reason_ txt : string.

Lemma decision_not_frozen overridden behavior :
  logs (decision false overridden behavior fail_msg reason_ txt)
    (Normal ("ALLOW", 0, reason_)) [].
Proof. unfold decision. cbn [andb]. auto with logs. Qed.

Lemma decision_overridden behavior :
  logs (decision true true behavior fail_msg reason_ txt)
    (Normal ("ALLOW", 0, "Frozen but overridden: " ++ txt)) [].
Proof. unfold decision. cbn [andb negb]. auto with logs. Qed.

Lemma decision_block :
  logs (decision true false "block" fail_msg reason_ txt)
    (Normal ("BLOCK", 1, reason_)) [].
Proof.
  unfold decision. cbn [andb negb]. rewrite String.eqb_refl. auto with logs.
Qed.

Lemma decision_warn :
  logs (decision true false "warn" fail_msg reason_ txt)
    (Normal ("WARN", 0, reason_)) ["::warning::" ++ fail_msg].
Proof.
  unfold decision. cbn [andb negb].
  change (String.eqb "warn" "block") with false.
  change (String.eqb "warn" "warn") with true. cbv iota.
  change ([?x]) with ([x] ++ [])%list.
  eapply logs_bind; auto with logs.
Qed.

Lemma decision_fallthrough behavior :
  String.eqb behavior "block" = false -> String.eqb behavior "warn" = false ->
  logs (decision true false behavior fail_msg reason_ txt)
    (Normal ("ALLOW", 0, reason_))
    ["::notice::Freeze active but behavior is 'allow'."].
Proof.
  intros Hb Hw. unfold decision. cbn [andb negb]. rewrite Hb, Hw.
  change ([?x]) with ([x] ++ [])%list.
  eapply logs_bind; auto with logs.
Qed.

Lemma decision_cases frozen overridden behavior :
  exists d lines,
    logs (decision frozen overridden behavior fail_msg reason_ txt) (Normal d) lines.
Proof.
  destruct frozen.
  2:{ do 2 eexists. apply decision_not_frozen. }
  destruct overridden.
  { do 2 eexists. apply decision_overridden. }
  destruct (String.eqb behavior "block") eqn:Hb.
  { apply String.eqb_eq in Hb. subst. do 2 eexists. apply decision_block. }
  destruct (String.eqb behavior "warn") eqn:Hw.
  { apply String.eqb_eq in Hw. subst. do 2 eexists. apply decision_warn. }
  do 2 eexists. now apply decision_fallthrough.
Qed.

End Decide.

Section Finish.

Variable env_name : string.
Variables now_local now_utc : aware.
Variable ws : window_state.

Lemma set_output_to path name value st :
  environ W "GITHUB_OUTPUT" = Some path ->
  set_output W name value st
  = (Normal tt,
     {| stdout := stdout st;
        written := written st ++ [(path, name ++ "=" ++ value ++ nl)] |}).
Proof.
  intros H. unfold set_output. now rewrite H.
Qed.

Lemma outputs_to path final_decision rsn overridden txt st :
  environ W "GITHUB_OUTPUT" = Some path ->
  outputs L W env_name now_local now_utc ws final_decision rsn overridden txt st
  = (Normal tt,
     {| stdout := stdout st;
        written :=
          written st
          ++ output_events L path env_name now_local now_utc ws
               final_decision rsn overridden txt |}).
Proof.
  intros H. unfold outputs.
  repeat (erewrite bind_normal by (apply set_output_to; exact H);
          cbn [stdout written]).
  rewrite (set_output_to path) by exact H. cbn [stdout written].
  unfold output_events. rewrite <- !app_assoc. reflexivity.
Qed.

Lemma outputs_unset final_decision rsn overridden txt st :
  environ W "GITHUB_OUTPUT" = None ->
  outputs L W env_name now_local now_utc ws final_decision rsn overridden txt st
  = (Uncaught "KeyError: 'GITHUB_OUTPUT'", st).
Proof.
  intros H. unfold outputs, bind, set_output. now rewrite H.
Qed.

(** The summary appends at most one text, which begins with a new line. *)
Lemma write_summary_cases a b c frozen dec wd od st :
  exists o evs,
    write_summary L W a b c frozen dec wd od st
    = (o, {| stdout := stdout st; written := written st ++ evs |})
    /\ (forall q t, In (q, t) evs -> exists r, t = nl ++ r)
    /\ (summary_ready L W = true -> o = Normal tt).
Proof.
  unfold write_summary, summary_ready.
  destruct (String.eqb (str_lower L (get_input_or L W "summary" "true")) "true");
    cbn [negb orb].
  2:{ exists (Normal tt), []. rewrite app_nil_r. destruct st.
      split; [reflexivity | split; [intros q t [] | reflexivity]]. }
  destruct (environ W "GITHUB_STEP_SUMMARY") as [path|]; cbn [truthy_path].
  - eexists (Normal tt), [_].
    split; [reflexivity | split; [ | reflexivity]].
    intros q t [E | []]. inversion E; subst.
    destruct (negb (String.eqb wd "")), (negb (String.eqb od ""));
      cbv zeta; eexists; reflexivity.
  - exists (Uncaught "KeyError: 'GITHUB_STEP_SUMMARY'"), [].
    rewrite app_nil_r. destruct st.
    split; [reflexivity | split; [intros q t [] | discriminate]].
Qed.

Lemma finish_unset ov d fail_msg st :
  environ W "GITHUB_OUTPUT" = None ->
  finish L W env_name now_local now_utc ws ov d fail_msg st
  = (Uncaught "KeyError: 'GITHUB_OUTPUT'", st).
Proof.
  intros H. unfold finish, bind. now rewrite outputs_unset.
Qed.

(** With [GITHUB_OUTPUT] set, the twelve outputs are written, then at
    most the summary; the exit status is the one decided as soon as the
    summary does not fail. *)
Lemma finish_to path ov d fail_msg st :
  environ W "GITHUB_OUTPUT" = Some path ->
  exists o evs,
    fst (finish L W env_name now_local now_utc ws ov d fail_msg st) = o
    /\ written (snd (finish L W env_name now_local now_utc ws ov d fail_msg st))
       = (written st
          ++ output_events L path env_name now_local now_utc ws
               (fst (fst d)) (snd d) (fst ov) (snd ov)
          ++ evs)%list
    /\ (forall q t, In (q, t) evs -> exists r, t = nl ++ r)
    /\ (summary_ready L W = true -> o = SysExit (snd (fst d))).
Proof.
  intros H. unfold finish.
  erewrite bind_normal by (apply outputs_to; exact H).
  unfold summary.
  match goal with
  | |- context [write_summary L W ?a ?b ?c ?f ?dec ?wd ?od] =>
      destruct (write_summary_cases a b c f dec wd od
                  {| stdout := stdout st;
                     written := written st
                       ++ output_events L path env_name now_local now_utc ws
                            (fst (fst d)) (snd d) (fst ov) (snd ov) |})
        as (o & evs & Hs & Hnl & Hready)
  end.
  cbn [stdout written] in Hs.
  destruct o as [[] | c | e].
  - erewrite bind_normal by exact Hs.
    exists (SysExit (snd (fst d))), evs.
    destruct (negb (snd (fst d) =? 0)); unfold bind, print, ret, sys_exit;
      cbn [fst snd written]; rewrite <- app_assoc; auto.
  - exists (SysExit c), evs. erewrite bind_sysexit by exact Hs.
    cbn [fst snd written]. rewrite <- app_assoc. repeat split; auto.
    intros R. specialize (Hready R). discriminate.
  - exists (Uncaught e), evs. erewrite bind_uncaught by exact Hs.
    cbn [fst snd written]. rewrite <- app_assoc. repeat split; auto.
    intros R. specialize (Hready R). discriminate.
Qed.

End Finish.

Section Events.

Variables path env_name : string.
Variables now_local now_utc : aware.
Variable ws : window_state.
Variables final_decision rsn txt : string.
Variable overridden : bool.
Variable evs : list (string * string).
Hypothesis summary_text : forall q t, In (q, t) evs -> exists r, t = nl ++ r.

Local Abbreviation events :=
  (output_events L path env_name now_local now_utc ws final_decision rsn
     overridden txt ++ evs)%list.

(** Splits a membership in [events] into its thirteen cases and
    discards those whose text begins differently. *)
Ltac which_event H :=
  apply in_app_or in H; destruct H as [H | H];
  [ unfold output_events in H; cbn [In] in H;
    repeat (destruct H as [H | H]; [try discriminate H | ]);
    try contradiction
  | apply summary_text in H; destruct H as [? H]; discriminate H ].

Lemma frozen_event q b :
  In (q, "is_frozen" ++ "=" ++ bool_str b ++ nl) events ->
  q = path /\ is_frozen ws = b.
Proof.
  intros H. which_event H.
  destruct (is_frozen ws), b; try discriminate H; now inversion H.
Qed.

Lemma overridden_event q b :
  In (q, "overridden" ++ "=" ++ bool_str b ++ nl) events ->
  q = path /\ overridden = b.
Proof.
  intros H. which_event H.
  destruct overridden, b; try discriminate H; now inversion H.
Qed.

Lemma decision_event q v :
  In (q, "decision" ++ "=" ++ v ++ nl) events -> v ++ nl = final_decision ++ nl.
Proof.
  intros H. which_event H. now inversion H.
Qed.

Lemma override_reason_event q v :
  In (q, "override_reason" ++ "=" ++ v ++ nl) events -> v ++ nl = txt ++ nl.
Proof.
  intros H. which_event H. now inversion H.
Qed.


End Events.

Section Main.

Local Abbreviation tz_str := (get_input_or L W "timezone" "UTC").
Local Abbreviation fail_msg :=
  (get_input_or L W "fail_message" "Release freeze is active. Deployment prevented.").
Local Abbreviation now_utc := {| wall := clock W; utcoffset := 0 |}.
Local Abbreviation greeting tz :=
  ["Checking freeze for environment: " ++ str_of (get_input L W "environment");
   "Current time: " ++ dt_str L (astimezone tz (clock W)) ++ " (" ++ tz_str ++ ") / "
     ++ dt_str L now_utc ++ " (UTC)"].
Local Abbreviation freeze tz :=
  (freeze_logic L tz (astimezone tz (clock W))
     (get_input L W "freeze_start") (get_input L W "freeze_end")
     (get_input L W "rrule") (get_input L W "duration_minutes")).
Local Abbreviation override frozen :=
  (override_logic W frozen
     (get_input L W "allow_override_label") (get_input L W "allow_override_actor")).
Local Abbreviation decide ws ov :=
  (decision (is_frozen ws) (fst ov) (str_lower L (get_input_or L W "behavior" "block"))
     fail_msg (reason ws) (snd ov)).

Lemma main_no_environment :
  truthy (get_input L W "environment") = false ->
  logs (main L W) (SysExit 1) ["::error::Input 'environment' is required."].
Proof.
  intros H. unfold main. cbv zeta. rewrite H. cbn [negb]. auto with logs.
Qed.

Lemma parse_timezone_known tz :
  pytz_timezone L tz_str = Some tz -> logs (parse_timezone L tz_str) (Normal tz) [].
Proof.
  intros H. unfold parse_timezone. rewrite H. auto with logs.
Qed.

Lemma main_unknown_timezone :
  truthy (get_input L W "environment") = true ->
  pytz_timezone L tz_str = None ->
  logs (main L W) (SysExit 1) ["::error::Unknown timezone: " ++ tz_str].
Proof.
  intros He Hz. unfold main. cbv zeta. rewrite He. cbn [negb].
  apply logs_skip, logs_bind_exit. unfold parse_timezone. rewrite Hz.
  auto with logs.
Qed.

Lemma main_freeze_exit tz lines :
  truthy (get_input L W "environment") = true ->
  pytz_timezone L tz_str = Some tz ->
  logs (freeze tz) (SysExit 1) lines ->
  logs (main L W) (SysExit 1) (greeting tz ++ lines).
Proof.
  intros He Hz Hf. unfold main. cbv zeta. rewrite He. cbn [negb].
  apply logs_skip.
  change (greeting tz ++ lines)%list with ([] ++ greeting tz ++ lines)%list.
  eapply logs_bind; [apply parse_timezone_known, Hz | ].
  cbn [app]. do 2 apply logs_then. now apply logs_bind_exit.
Qed.

(** Once the freeze logic has returned, [main] reaches its outputs. *)
Lemma main_finish tz ws ov d l2 l3 st :
  truthy (get_input L W "environment") = true ->
  pytz_timezone L tz_str = Some tz ->
  logs (freeze tz) (Normal ws) [] ->
  logs (override (is_frozen ws)) (Normal ov) l2 ->
  logs (decide ws ov) (Normal d) l3 ->
  main L W st
  = finish L W (str_of (get_input L W "environment")) (astimezone tz (clock W)) now_utc
      ws ov d fail_msg
      {| stdout := stdout st ++ greeting tz ++ l2 ++ l3; written := written st |}.
Proof.
  intros He Hz Hf Ho Hd. unfold main. cbv zeta. rewrite He. cbn [negb].
  erewrite bind_logs by apply logs_ret.
  erewrite bind_logs by (apply parse_timezone_known, Hz).
  do 2 erewrite bind_logs by apply logs_print.
  erewrite bind_logs by exact Hf.
  erewrite bind_logs by exact Ho.
  erewrite bind_logs by exact Hd.
  cbn [stdout written]. unfold finish. f_equal. f_equal.
  rewrite !app_nil_r, <- !app_assoc. reflexivity.
Qed.

(** [main] stops in one of two ways: a fatal input error, with status 1
    and nothing written, or the outputs of lines 213-245. *)
Lemma main_cases :
  (exists lines, logs (main L W) (SysExit 1) lines)
  \/ (exists tz ws ov d lines,
        truthy (get_input L W "environment") = true
        /\ pytz_timezone L tz_str = Some tz
        /\ logs (freeze tz) (Normal ws) []
        /\ (fst ov = true -> is_frozen ws = true)
        /\ (exists l2, logs (override (is_frozen ws)) (Normal ov) l2)
        /\ (exists l3, logs (decide ws ov) (Normal d) l3)
        /\ forall st,
             main L W st
             = finish L W (str_of (get_input L W "environment"))
                 (astimezone tz (clock W)) now_utc ws ov d fail_msg
                 {| stdout := stdout st ++ lines; written := written st |}).
Proof.
  destruct (truthy (get_input L W "environment")) eqn:He.
  2:{ left. eexists. now apply main_no_environment. }
  destruct (pytz_timezone L tz_str) as [tz|] eqn:Hz.
  2:{ left. eexists. now apply main_unknown_timezone. }
  destruct (freeze_logic_cases tz (astimezone tz (clock W))
              (get_input L W "freeze_start") (get_input L W "freeze_end")
              (get_input L W "rrule") (get_input L W "duration_minutes"))
    as [[line Hf] | [ws Hf]].
  { left. eexists. eapply main_freeze_exit; eassumption. }
  destruct (override_logic_cases (get_input L W "allow_override_label")
              (get_input L W "allow_override_actor") (is_frozen ws))
    as (ov & l2 & Ho & Hov).
  destruct (decision_cases fail_msg (reason ws) (snd ov) (is_frozen ws) (fst ov)
              (str_lower L (get_input_or L W "behavior" "block")))
    as (d & l3 & Hd).
  right. exists tz, ws, ov, d. eexists.
  repeat (split; [solve [eauto] | ]).
  intros st. eapply main_finish; eassumption.
Qed.

Lemma fatal_run lines :
  logs (main L W) (SysExit 1) lines ->
  exit_of L W = SysExit 1 /\ written (snd (main L W init)) = [].
Proof.
  intros H. unfold exit_of. now rewrite (H init).
Qed.

(** What a run that reaches its outputs writes, and how it exits. *)
Lemma main_written tz ws path :
  truthy (get_input L W "environment") = true ->
  pytz_timezone L tz_str = Some tz ->
  logs (freeze tz) (Normal ws) [] ->
  environ W "GITHUB_OUTPUT" = Some path ->
  exists ov d l2 l3 evs,
    logs (override (is_frozen ws)) (Normal ov) l2
    /\ logs (decide ws ov) (Normal d) l3
    /\ (fst ov = true -> is_frozen ws = true)
    /\ written (snd (main L W init))
       = (output_events L path (str_of (get_input L W "environment"))
            (astimezone tz (clock W)) now_utc ws
            (fst (fst d)) (snd d) (fst ov) (snd ov) ++ evs)%list
    /\ (forall q t, In (q, t) evs -> exists r, t = nl ++ r)
    /\ (summary_ready L W = true -> exit_of L W = SysExit (snd (fst d))).
Proof.
  intros He Hz Hf Hp.
  destruct (override_logic_cases (get_input L W "allow_override_label")
              (get_input L W "allow_override_actor") (is_frozen ws))
    as (ov & l2 & Ho & Hov).
  destruct (decision_cases fail_msg (reason ws) (snd ov) (is_frozen ws) (fst ov)
              (str_lower L (get_input_or L W "behavior" "block")))
    as (d & l3 & Hd).
  exists ov, d, l2, l3.
  unfold exit_of. rewrite (main_finish tz ws ov d l2 l3 init He Hz Hf Ho Hd).
  match goal with
  | |- context [finish _ _ _ _ _ _ _ _ _ ?st] =>
      destruct (finish_to (str_of (get_input L W "environment"))
                  (astimezone tz (clock W)) now_utc ws path ov d fail_msg st Hp)
        as (o & evs & Eo & Ew & Hnl & Hready)
  end.
  exists evs. rewrite Ew, Eo. cbn [written init app]. auto 7.
Qed.

End Main.

End Phases.

(** ** Two worlds with the same setting *)

Section TwoWorlds.

Variable L : Libs.
Variables W1 W2 : World.
Hypothesis Hsame : same_setting L W1 W2.

Lemma same_run_self {A : Type} (m : M A) o l : logs m o l -> same_run m m.
Proof. intros H. exact (same_run_logs m m o l l H H). Qed.

Lemma outputs_same_run env_name now_local now_utc ws dec rsn ovr txt :
  same_run (outputs L W1 env_name now_local now_utc ws dec rsn ovr txt)
    (outputs L W2 env_name now_local now_utc ws dec rsn ovr txt).
Proof.
  intros st1 st2 E. pose proof (same_output _ _ _ Hsame) as Ho.
  destruct (environ W2 "GITHUB_OUTPUT") as [path|] eqn:H2.
  - rewrite (outputs_to L W1 env_name now_local now_utc ws path) by exact Ho.
    rewrite (outputs_to L W2 env_name now_local now_utc ws path) by exact H2.
    cbn. now rewrite E.
  - rewrite (outputs_unset L W1) by exact Ho.
    rewrite (outputs_unset L W2) by exact H2.
    cbn. now split.
Qed.

Lemma summary_same_run env_name now_local now_utc ws dec txt :
  same_run (summary L W1 env_name now_local now_utc ws dec txt)
    (summary L W2 env_name now_local now_utc ws dec txt).
Proof.
  unfold summary, write_summary.
  rewrite (same_summary _ _ _ Hsame), (same_step_summary _ _ _ Hsame).
  destruct (negb (String.eqb (str_lower L (get_input_or L W2 "summary" "true")) "true")).
  { eapply same_run_self, logs_ret. }
  destruct (environ W2 "GITHUB_STEP_SUMMARY").
  - apply same_run_append.
  - apply same_run_raise.
Qed.

Lemma finish_same_run env_name now_local now_utc ws ov d fail_msg :
  same_run (finish L W1 env_name now_local now_utc ws ov d fail_msg)
    (finish L W2 env_name now_local now_utc ws ov d fail_msg).
Proof.
  unfold finish.
  apply same_run_bind; [apply outputs_same_run | intros _].
  apply same_run_bind; [apply summary_same_run | intros _].
  apply same_run_bind; [ | intros _; eapply same_run_self, logs_exit].
  destruct (negb (snd (fst d) =? 0)); eapply same_run_self; auto with logs.
Qed.

(** Worlds with the same setting, the same freeze logic and the same
    override logic give the same run. *)
Lemma main_same_run :
  (forall tz,
      same_run
        (freeze_logic L tz (astimezone tz (clock W1))
           (get_input L W1 "freeze_start") (get_input L W1 "freeze_end")
           (get_input L W1 "rrule") (get_input L W1 "duration_minutes"))
        (freeze_logic L tz (astimezone tz (clock W1))
           (get_input L W2 "freeze_start") (get_input L W2 "freeze_end")
           (get_input L W2 "rrule") (get_input L W2 "duration_minutes"))) ->
  (forall frozen,
      same_run
        (override_logic W1 frozen (get_input L W1 "allow_override_label")
           (get_input L W1 "allow_override_actor"))
        (override_logic W2 frozen (get_input L W2 "allow_override_label")
           (get_input L W2 "allow_override_actor"))) ->
  same_run (main L W1) (main L W2).
Proof.
  intros Hfreeze Hoverride. unfold main. cbv zeta.
  rewrite <- (same_environment _ _ _ Hsame), <- (same_clock _ _ _ Hsame).
  rewrite <- !(same_behavior _ _ _ Hsame), <- !(same_timezone _ _ _ Hsame),
    <- !(same_fail_message _ _ _ Hsame).
  apply same_run_bind; [ | intros _].
  { destruct (negb (truthy (get_input L W1 "environment")));
      eapply same_run_self; auto with logs. }
  apply same_run_bind; [ | intros tz].
  { unfold parse_timezone.
    destruct (pytz_timezone L (get_input_or L W1 "timezone" "UTC"));
      eapply same_run_self; auto with logs. }
  apply same_run_bind; [eapply same_run_self, logs_print | intros _].
  apply same_run_bind; [eapply same_run_self, logs_print | intros _].
  apply same_run_bind; [apply Hfreeze | intros ws].
  apply same_run_bind; [apply Hoverride | intros ov].
  apply same_run_bind; [ | intros d].
  { destruct (decision_cases
                (get_input_or L W1 "fail_message"
                   "Release freeze is active. Deployment prevented.")
                (reason ws) (snd ov) (is_frozen ws) (fst ov)
                (str_lower L (get_input_or L W1 "behavior" "block"))) as (d & l & Hd).
    eapply same_run_self, Hd. }
  apply finish_same_run.
Qed.

End TwoWorlds.

(** ** What a complete run reports *)

Section Reports.

Variable L : Libs.
Variable W : World.
Variable tz : tzinfo.
Variable path : string.
Hypothesis Hready : ready L W tz path.

Local Abbreviation freeze :=
  (freeze_logic L tz (astimezone tz (clock W))
     (get_input L W "freeze_start") (get_input L W "freeze_end")
     (get_input L W "rrule") (get_input L W "duration_minutes")).

Lemma instant_astimezone t : instant (astimezone tz t) = t.
Proof. unfold instant, astimezone. cbn. lia. Qed.

Lemma reports_frozen ws b :
  logs freeze (Normal ws) [] ->
  reports L W "is_frozen" (bool_str b) <-> is_frozen ws = b.
Proof.
  intros Hf. destruct Hready as [He Hz Hp].
  destruct (main_written L W tz ws path He Hz Hf Hp)
    as (ov & d & l2 & l3 & evs & _ & _ & _ & Ew & Hnl & _).
  unfold reports. rewrite Ew. split.
  - intros (q & _ & Hin). now apply frozen_event in Hin.
  - intros <-. exists path. split; [exact Hp | ].
    apply in_or_app. left. now left.
Qed.

Lemma reports_true_or_false ws :
  logs freeze (Normal ws) [] ->
  reports L W "is_frozen" "false" <-> ~ reports L W "is_frozen" "true".
Proof.
  intros Hf.
  rewrite (reports_frozen ws false Hf), (reports_frozen ws true Hf).
  destruct (is_frozen ws); split; congruence.
Qed.

End Reports.

(** ** The recurring window, step by step *)

Lemma timedelta_fits (O D : Z) :
  representable O -> representable (O + D * usec_per_minute) ->
  timedelta_minutes D = Ok (D * usec_per_minute).
Proof.
  unfold representable, timedelta_minutes, datetime_max, usec_per_day,
    usec_per_minute, timedelta_max_days.
  intros HO HD.
  assert (H : Z.abs (D / 1440) <= 999999999).
  { apply Z.abs_le. split.
    - apply Z.div_le_lower_bound; lia.
    - apply Z.div_le_upper_bound; lia. }
  apply Z.leb_le in H. now rewrite H.
Qed.

Lemma datetime_add_fits (O d : Z) :
  representable (O + d) -> datetime_add O d = Ok (O + d).
Proof.
  unfold representable, datetime_add. intros [H1 H2].
  apply Z.leb_le in H1, H2. now rewrite H1, H2.
Qed.

Section Recurring.

Variable L : Libs.
Variable W : World.
Variable tz : tzinfo.
Variable minutes : Z.

Local Abbreviation evaluate :=
  (recurring_window L tz (astimezone tz (clock W))
     (str_of (get_input L W "rrule")) (str_of (get_input L W "duration_minutes"))).

Lemma recurring_freeze last ws :
  recurrence L W tz last minutes ->
  evaluate = Ok ws ->
  logs (freeze_logic L tz (astimezone tz (clock W))
          (get_input L W "freeze_start") (get_input L W "freeze_end")
          (get_input L W "rrule") (get_input L W "duration_minutes"))
    (Normal ws) [].
Proof.
  intros (Hs & He & Hr & Hd & _) Hw. apply freeze_recurring; try guards. exact Hw.
Qed.

(** No occurrence up to now: the window is not active. *)
Lemma recurring_none :
  recurrence L W tz None minutes -> evaluate = Ok no_window.
Proof.
  intros (_ & _ & _ & _ & Hint & rule & Hrule & Hbefore).
  unfold recurring_window. rewrite Hint. cbn [rbind].
  fold (now_naive W tz). rewrite Hrule. cbn [rbind]. now rewrite Hbefore.
Qed.

(** An occurrence [O] whose end is a [datetime]: frozen while [now] is
    before that end, as soon as the two bounds can be localized. *)
Lemma recurring_some O :
  recurrence L W tz (Some O) minutes ->
  representable O -> representable (O + minutes * usec_per_minute) ->
  (exists off, tz_localize tz O = Ok off) ->
  (exists off, tz_localize tz (O + minutes * usec_per_minute) = Ok off) ->
  exists ws,
    evaluate = Ok ws
    /\ is_frozen ws = (now_naive W tz <? O + minutes * usec_per_minute).
Proof.
  intros (_ & _ & _ & _ & Hint & rule & Hrule & Hbefore) HO HE [o1 L1] [o2 L2].
  unfold recurring_window. rewrite Hint. cbn [rbind].
  fold (now_naive W tz). rewrite Hrule. cbn [rbind]. rewrite Hbefore. cbn [rbind].
  rewrite (timedelta_fits O minutes HO HE). cbn [rbind].
  rewrite (datetime_add_fits _ _ HE). cbn [rbind].
  unfold localize. rewrite L1, L2. cbn [rbind].
  destruct (now_naive W tz <? O + minutes * usec_per_minute);
    eexists; split; reflexivity.
Qed.

End Recurring.

(** ** Fatal input errors *)

Section Fatal.

Variable L : Libs.
Variable W : World.

Local Abbreviation freeze tz :=
  (freeze_logic L tz (astimezone tz (clock W))
     (get_input L W "freeze_start") (get_input L W "freeze_end")
     (get_input L W "rrule") (get_input L W "duration_minutes")).

(** A run whose freeze logic exits, whatever the timezone, is fatal. *)
Lemma fatal_in_freeze :
  (forall tz, exists lines, logs (freeze tz) (SysExit 1) lines) ->
  exit_of L W = SysExit 1 /\ written (snd (main L W init)) = [].
Proof.
  intros Hf.
  destruct (truthy (get_input L W "environment")) eqn:He.
  2:{ eapply fatal_run, main_no_environment, He. }
  destruct (pytz_timezone L (get_input_or L W "timezone" "UTC")) as [tz|] eqn:Hz.
  2:{ eapply fatal_run, main_unknown_timezone; eassumption. }
  destruct (Hf tz) as [lines Hl].
  eapply fatal_run, main_freeze_exit; eassumption.
Qed.

Lemma fixed_window_raise tz now s e msg :
  parser_parse L s = Raise msg \/ parser_parse L e = Raise msg ->
  exists msg', fixed_window L tz now s e = Raise msg'.
Proof.
  unfold fixed_window. intros [H | H].
  - rewrite H. now eexists.
  - destruct (parser_parse L s); [rewrite H | ]; now eexists.
Qed.

Lemma recurring_window_raise tz now r d :
  (forall dtstart, exists msg, rrulestr L r dtstart = Raise msg) ->
  exists msg', recurring_window L tz now r d = Raise msg'.
Proof.
  unfold recurring_window. intros H.
  destruct (builtin_int L d); [ | now eexists]. cbn [rbind].
  destruct (H (wall now)) as [msg ->]. now eexists.
Qed.

Lemma fatal_errors_missing_duration :
  truthy (get_input L W "rrule") = true ->
  truthy (get_input L W "duration_minutes") = false ->
  exit_of L W = SysExit 1 /\ written (snd (main L W init)) = [].
Proof.
  intros Hr Hd. apply fatal_in_freeze. intros tz.
  destruct (truthy (get_input L W "freeze_start")) eqn:Hs;
    destruct (truthy (get_input L W "freeze_end")) eqn:He;
    eexists;
    solve [ apply freeze_both; guards | apply freeze_no_duration; guards ].
Qed.

End Fatal.

(** A recurrence whose window has already ended at [now], for instance
    because its duration is not positive. *)
Lemma recurring_ended (L : Libs) (W : World) (tz : tzinfo) (minutes O : Z) :
  recurrence L W tz (Some O) minutes ->
  representable O -> representable (O + minutes * usec_per_minute) ->
  O + minutes * usec_per_minute <= now_naive W tz ->
  recurring_window L tz (astimezone tz (clock W))
    (str_of (get_input L W "rrule")) (str_of (get_input L W "duration_minutes"))
  = Ok no_window.
Proof.
  intros (_ & _ & _ & _ & Hint & rule & Hrule & Hbefore) HO HE Hend.
  unfold recurring_window. rewrite Hint. cbn [rbind].
  fold (now_naive W tz). rewrite Hrule. cbn [rbind]. rewrite Hbefore. cbn [rbind].
  rewrite (timedelta_fits O minutes HO HE). cbn [rbind].
  rewrite (datetime_add_fits _ _ HE). cbn [rbind].
  apply Z.ltb_ge in Hend. now rewrite Hend.
Qed.

(** A label check that cannot use the payload warns and overrides nothing. *)
Lemma label_payload_failure (W : World) (label : option string) :
  label_checked W label = true -> payload_failure W label ->
  exists line, logs (label_override W label) (Normal (false, "")) [line].
Proof.
  intros Hc [Hp | [msg Hm]].
  - eexists. now apply label_no_payload.
  - destruct (payload_found W) eqn:Hp.
    + eexists. eapply label_payload_raise; eassumption.
    + eexists. now apply label_no_payload.
Qed.

(** ** The properties *)

(** The decision block returns the row of the table. *)
Lemma decision_row (isFrozen overridden : bool) (behavior fail_msg reason_ txt : string) :
  exists reason' lines,
    logs (decision isFrozen overridden behavior fail_msg reason_ txt)
      (Normal (decision_name (fst (table_4_4 isFrozen overridden (behavior_of behavior))),
               snd (table_4_4 isFrozen overridden (behavior_of behavior)),
               reason'))
      lines.
Proof.
  destruct isFrozen.
  2:{ do 2 eexists. apply decision_not_frozen. }
  destruct overridden.
  { do 2 eexists. apply decision_overridden. }
  unfold behavior_of.
  destruct (String.eqb behavior "block") eqn:Hb.
  { apply String.eqb_eq in Hb. subst. do 2 eexists. apply decision_block. }
  destruct (String.eqb behavior "warn") eqn:Hw.
  { apply String.eqb_eq in Hw. subst. do 2 eexists. apply decision_warn. }
  destruct (String.eqb behavior "allow");
    do 2 eexists; now apply decision_fallthrough.
Qed.

(** C1. For every combination of the frozen flag, the overridden flag and the
    behaviour string, [# 4. Decision] returns the decision and the exit code
    of the table of section 4.4: not frozen gives ALLOW and 0; frozen and
    overridden gives ALLOW and 0; frozen and not overridden gives BLOCK and 1
    for [block], WARN and 0 for [warn], and ALLOW and 0 for [allow] and for
    every other string.  A run whose freeze logic and override logic return
    [ws] and [ov] reports that decision and exits with that code. *)
Theorem decision_table_complete :
  (forall (isFrozen overridden : bool) (behavior fail_msg reason_ txt : string),
      exists reason' lines,
        logs (decision isFrozen overridden behavior fail_msg reason_ txt)
          (Normal (decision_name
                     (fst (table_4_4 isFrozen overridden (behavior_of behavior))),
                   snd (table_4_4 isFrozen overridden (behavior_of behavior)),
                   reason'))
          lines)
  /\ (forall (L : Libs) (W : World) (tz : tzinfo) (path : string)
             (ws : window_state) (ov : bool * string) (lines : list string),
         ready L W tz path ->
         summary_ready L W = true ->
         logs (freeze_logic L tz (astimezone tz (clock W))
                 (get_input L W "freeze_start") (get_input L W "freeze_end")
                 (get_input L W "rrule") (get_input L W "duration_minutes"))
           (Normal ws) [] ->
         logs (override_logic W (is_frozen ws) (get_input L W "allow_override_label")
                 (get_input L W "allow_override_actor"))
           (Normal ov) lines ->
         exit_of L W
         = SysExit (snd (table_4_4 (is_frozen ws) (fst ov)
                           (behavior_of (str_lower L (get_input_or L W "behavior" "block")))))
         /\ reports L W "decision"
              (decision_name
                 (fst (table_4_4 (is_frozen ws) (fst ov)
                         (behavior_of (str_lower L (get_input_or L W "behavior" "block"))))))).
Proof.
  split; [exact decision_row | ].
  intros L W tz path ws ov lines [He Hz Hp] Hsum Hf Ho.
  destruct (main_written L W tz ws path He Hz Hf Hp)
    as (ov' & d & l2 & l3 & evs & Ho' & Hd & _ & Ew & _ & Hexit).
  destruct (logs_fun _ _ _ _ _ Ho' Ho) as [Eov _]. injection Eov as ->.
  destruct (decision_row (is_frozen ws) (fst ov)
              (str_lower L (get_input_or L W "behavior" "block"))
              (get_input_or L W "fail_message"
                 "Release freeze is active. Deployment prevented.")
              (reason ws) (snd ov)) as (r & l & Hrow).
  destruct (logs_fun _ _ _ _ _ Hd Hrow) as [Ed _]. injection Ed as ->.
  split; [now apply Hexit | ].
  exists path. split; [exact Hp | ]. rewrite Ew. apply in_or_app. left.
  right. now left.
Qed.

(** C3. For a fixed window whose bounds parse to [start] and [end_], the run
    reports [is_frozen=true] exactly when [start <= now <= end_], both bounds
    included; at every other instant it reports [is_frozen=false]. *)
Theorem fixed_window_inclusive (L : Libs) (W : World) (tz : tzinfo) (path : string)
    (start end_ : aware) :
  ready L W tz path ->
  fixed_bounds L W tz start end_ ->
  (reports L W "is_frozen" "true" <-> instant start <= clock W <= instant end_)
  /\ (reports L W "is_frozen" "false" <-> ~ instant start <= clock W <= instant end_).
Proof.
  intros Hready (Hs & He & Hr & dt_start & dt_end & Ps & Pe & Ls & Le).
  set (now_local := astimezone tz (clock W)).
  assert (Hw : exists ws,
             fixed_window L tz now_local (str_of (get_input L W "freeze_start"))
               (str_of (get_input L W "freeze_end")) = Ok ws
             /\ is_frozen ws
                = ((instant start <=? clock W) && (clock W <=? instant end_))%bool).
  { unfold fixed_window. rewrite Ps, Pe. cbn [rbind]. rewrite Ls, Le. cbn [rbind].
    unfold aware_le, now_local. rewrite instant_astimezone.
    destruct ((instant start <=? clock W) && (clock W <=? instant end_))%bool;
      eexists; split; reflexivity. }
  destruct Hw as (ws & Hw & Hfrozen).
  assert (Hf : logs (freeze_logic L tz now_local
                       (get_input L W "freeze_start") (get_input L W "freeze_end")
                       (get_input L W "rrule") (get_input L W "duration_minutes"))
                 (Normal ws) []).
  { apply freeze_fixed; [guards | guards | exact Hw]. }
  assert (Htrue : reports L W "is_frozen" "true"
                  <-> instant start <= clock W <= instant end_).
  { rewrite (reports_frozen L W tz path Hready ws true Hf), Hfrozen.
    rewrite andb_true_iff, !Z.leb_le. tauto. }
  split; [exact Htrue | ].
  rewrite (reports_true_or_false L W tz path Hready ws Hf). now rewrite Htrue.
Qed.

(** C2, as the source has it.  For a recurring window whose most recent
    occurrence at or before now is [O] and whose duration is [D] minutes,
    with [O] and [O + D] values that a [datetime] can hold and that
    [localize] accepts, the run reports [is_frozen=true] exactly when
    [O <= now < O + D]: every instant of the half-open interval is frozen,
    and the instant [O + D] itself is reported not frozen. *)
Theorem recurrence_half_open (L : Libs) (W : World) (tz : tzinfo) (path : string)
    (O D : Z) :
  ready L W tz path ->
  recurrence L W tz (Some O) D ->
  O <= now_naive W tz ->
  representable O -> representable (O + D * usec_per_minute) ->
  (exists off, tz_localize tz O = Ok off) ->
  (exists off, tz_localize tz (O + D * usec_per_minute) = Ok off) ->
  (reports L W "is_frozen" "true" <-> O <= now_naive W tz < O + D * usec_per_minute)
  /\ (reports L W "is_frozen" "false"
      <-> ~ O <= now_naive W tz < O + D * usec_per_minute)
  /\ (now_naive W tz = O + D * usec_per_minute -> reports L W "is_frozen" "false").
Proof.
  intros Hready Hrec Hle HO HE L1 L2.
  destruct (recurring_some L W tz D O Hrec HO HE L1 L2) as (ws & Hw & Hfrozen).
  pose proof (recurring_freeze L W tz D (Some O) ws Hrec Hw) as Hf.
  assert (Htrue : reports L W "is_frozen" "true"
                  <-> O <= now_naive W tz < O + D * usec_per_minute).
  { rewrite (reports_frozen L W tz path Hready ws true Hf), Hfrozen, Z.ltb_lt. tauto. }
  assert (Hfalse : reports L W "is_frozen" "false"
                   <-> ~ O <= now_naive W tz < O + D * usec_per_minute).
  { rewrite (reports_true_or_false L W tz path Hready ws Hf). now rewrite Htrue. }
  repeat split; try apply Htrue; try apply Hfalse; auto.
  intros E. apply Hfalse. lia.
Qed.

(** C7. Whatever the configuration and the instant, a run that reports
    [overridden=true] also reports [is_frozen=true]: no override is reported
    for a window that is not frozen. *)
Theorem overridden_only_if_frozen (L : Libs) (W : World) :
  reports L W "overridden" "true" -> reports L W "is_frozen" "true".
Proof.
  intros (path & Hp & Hin).
  destruct (main_cases L W)
    as [[lines Hfatal] | (tz & ws & _ & _ & _ & He & Hz & Hf & _)].
  { apply fatal_run in Hfatal. destruct Hfatal as [_ Hw].
    rewrite Hw in Hin. contradiction. }
  destruct (main_written L W tz ws path He Hz Hf Hp)
    as (ov & d & l2 & l3 & evs & _ & _ & Hov & Ew & Hnl & _).
  rewrite Ew in Hin.
  apply (overridden_event L path _ _ _ ws _ _ _ _ evs Hnl path true) in Hin.
  destruct Hin as [_ Hin].
  apply (reports_frozen L W tz path (Build_ready L W tz path He Hz Hp) ws true Hf).
  auto.
Qed.

(** C5. A configuration that supplies a fixed-window input ([freeze_start]
    or [freeze_end]) together with [rrule] makes the run exit with status 1
    and nothing written, whatever the instant and whatever the date and rule
    parsers would answer; past the first inputs, the last thing printed is the
    message of the exclusivity check. *)
Theorem both_windows_fatal (L : Libs) (W : World) :
  ((truthy (get_input L W "freeze_start") || truthy (get_input L W "freeze_end"))
   && truthy (get_input L W "rrule"))%bool = true ->
  exit_of L W = SysExit 1
  /\ written (snd (main L W init)) = []
  /\ (truthy (get_input L W "environment") = true ->
      pytz_timezone L (get_input_or L W "timezone" "UTC") <> None ->
      exists greeting,
        stdout (snd (main L W init))
        = (greeting
           ++ ["::error::Cannot specify both fixed window (freeze_start/end) and recurring window (rrule)."])%list).
Proof.
  intros Hboth.
  assert (Hf : forall tz,
             logs (freeze_logic L tz (astimezone tz (clock W))
                     (get_input L W "freeze_start") (get_input L W "freeze_end")
                     (get_input L W "rrule") (get_input L W "duration_minutes"))
               (SysExit 1)
               ["::error::Cannot specify both fixed window (freeze_start/end) and recurring window (rrule)."]).
  { intros tz. now apply freeze_both. }
  destruct (fatal_in_freeze L W) as [Hexit Hw].
  { intros tz. eexists. apply Hf. }
  repeat split; [exact Hexit | exact Hw | ].
  intros He Hz.
  destruct (pytz_timezone L (get_input_or L W "timezone" "UTC")) as [tz|] eqn:Etz;
    [ | congruence].
  rewrite (main_freeze_exit L W tz _ He Etz (Hf tz) init). cbn [snd stdout init app].
  now eexists [_; _].
Qed.

(** C9. Each fatal input error (no environment, unrecognized timezone, fixed
    and recurring window together, [rrule] without [duration_minutes],
    unparseable dates of a fixed window, unparseable recurrence rule) ends the
    run with exit status 1 before any output pair is written. *)
Theorem fatal_errors_write_nothing (L : Libs) (W : World) :
  fatal_input L W ->
  exit_of L W = SysExit 1 /\ written (snd (main L W init)) = [].
Proof.
  intros [He | Hz | Hboth | Hr Hd | msg Hs He Hp | Hr Hbad].
  - eapply fatal_run, main_no_environment, He.
  - destruct (truthy (get_input L W "environment")) eqn:He.
    + eapply fatal_run, main_unknown_timezone; eassumption.
    + eapply fatal_run, main_no_environment, He.
  - apply fatal_in_freeze. intros tz. eexists. now apply freeze_both.
  - apply fatal_in_freeze. intros tz.
    destruct (truthy (get_input L W "freeze_start")) eqn:Hs;
      destruct (truthy (get_input L W "freeze_end")) eqn:He;
      eexists;
      solve [ apply freeze_both; guards | apply freeze_no_duration; guards ].
  - apply fatal_in_freeze. intros tz.
    destruct (fixed_window_raise L tz (astimezone tz (clock W)) _ _ msg Hp)
      as [msg' Hraise].
    destruct (truthy (get_input L W "rrule")) eqn:Hr; eexists;
      solve [ apply freeze_both; guards
            | eapply freeze_fixed_raise; [guards | guards | exact Hraise] ].
  - apply fatal_in_freeze. intros tz.
    destruct (recurring_window_raise L tz (astimezone tz (clock W))
                (str_of (get_input L W "rrule"))
                (str_of (get_input L W "duration_minutes")) Hbad)
      as [msg' Hraise].
    destruct (truthy (get_input L W "freeze_start")) eqn:Hs;
      destruct (truthy (get_input L W "freeze_end")) eqn:He;
      destruct (truthy (get_input L W "duration_minutes")) eqn:Hd;
      eexists;
      solve [ apply freeze_both; guards
            | apply freeze_no_duration; guards
            | eapply freeze_recurring_raise; [guards .. | exact Hraise] ].
Qed.

(** C10. With exactly one of [freeze_start] and [freeze_end] supplied and no
    [rrule], the run does not fail: it reports [is_frozen=false],
    [window_type=NONE] and [decision=ALLOW], exits with status 0, and exits
    and writes as the run in which neither bound is set. *)
Theorem partial_fixed_window_ignored (L : Libs) (W : World) (tz : tzinfo)
    (path : string) :
  ready L W tz path ->
  summary_ready L W = true ->
  xorb (truthy (get_input L W "freeze_start")) (truthy (get_input L W "freeze_end")) = true ->
  truthy (get_input L W "rrule") = false ->
  exit_of L W = SysExit 0
  /\ reports L W "is_frozen" "false"
  /\ reports L W "window_type" "NONE"
  /\ reports L W "decision" "ALLOW"
  /\ exit_of L W = exit_of L (unset "INPUT_FREEZE_START" (unset "INPUT_FREEZE_END" W))
  /\ written (snd (main L W init))
     = written (snd (main L (unset "INPUT_FREEZE_START" (unset "INPUT_FREEZE_END" W)) init)).
Proof.
  intros Hready Hsum Hone Hr.
  assert (Hpair : (truthy (get_input L W "freeze_start")
                   && truthy (get_input L W "freeze_end"))%bool = false).
  { destruct (truthy (get_input L W "freeze_start")),
      (truthy (get_input L W "freeze_end")); auto; discriminate. }
  pose proof (freeze_nothing L tz (astimezone tz (clock W)) _ _ _
                (get_input L W "duration_minutes") Hpair Hr) as Hf.
  destruct Hready as [He Hz Hp].
  destruct (main_written L W tz no_window path He Hz Hf Hp)
    as (ov & d & l2 & l3 & evs & Ho & Hd & _ & Ew & _ & Hexit).
  cbn [is_frozen no_window] in Ho, Hd.
  destruct (logs_fun _ _ _ _ _ Ho (override_not_frozen W _ _)) as [Eov _].
  injection Eov as ->.
  destruct (logs_fun _ _ _ _ _ Hd (decision_not_frozen _ _ _ _ _)) as [Ed _].
  injection Ed as ->.
  assert (Hsame : same_run (main L W)
                    (main L (unset "INPUT_FREEZE_START" (unset "INPUT_FREEZE_END" W)))).
  { apply main_same_run.
    - constructor; reflexivity.
    - intros tz'.
      eapply same_run_logs;
        [ apply freeze_nothing; [exact Hpair | exact Hr]
        | apply freeze_nothing; [reflexivity | exact Hr] ].
    - intros frozen.
      destruct (override_logic_cases W (get_input L W "allow_override_label")
                  (get_input L W "allow_override_actor") frozen) as (ov & l & H & _).
      exact (same_run_self _ _ _ H). }
  destruct (Hsame init init eq_refl) as [Hx Hw].
  repeat split.
  - now apply Hexit.
  - exists path. split; [exact Hp | ]. rewrite Ew. apply in_or_app. left. now left.
  - exists path. split; [exact Hp | ]. rewrite Ew. apply in_or_app. left.
    do 5 right. now left.
  - exists path. split; [exact Hp | ]. rewrite Ew. apply in_or_app. left.
    right. now left.
  - exact Hx.
  - exact Hw.
Qed.

(** C8. With a label override configured on a pull-request event, a payload
    that is missing, unreadable or malformed does not abort the run: the label
    check prints a warning and overrides nothing, the override logic returns
    what the actor check alone returns, and the run exits and writes as the
    same run without [allow_override_label]. *)
Theorem payload_failure_is_harmless (L : Libs) (W : World) :
  label_checked W (get_input L W "allow_override_label") = true ->
  payload_failure W (get_input L W "allow_override_label") ->
  (exists line,
      logs (label_override W (get_input L W "allow_override_label")) (Normal (false, ""))
        [line])
  /\ (forall actor ov lines,
         logs (actor_override W actor (false, "")) (Normal ov) lines ->
         exists lines',
           logs (override_logic W true (get_input L W "allow_override_label") actor)
             (Normal ov) lines')
  /\ exit_of L W = exit_of L (unset "INPUT_ALLOW_OVERRIDE_LABEL" W)
  /\ written (snd (main L W init))
     = written (snd (main L (unset "INPUT_ALLOW_OVERRIDE_LABEL" W) init)).
Proof.
  intros Hc Hfail.
  destruct (label_payload_failure W _ Hc Hfail) as [line Hlabel].
  assert (Hactor : forall actor ov lines,
             logs (actor_override W actor (false, "")) (Normal ov) lines ->
             logs (override_logic W true (get_input L W "allow_override_label") actor)
               (Normal ov) ([line] ++ lines)).
  { intros actor ov lines Ha. now apply override_frozen with (false, ""). }
  assert (Hsame : same_run (main L W) (main L (unset "INPUT_ALLOW_OVERRIDE_LABEL" W))).
  { apply main_same_run.
    - constructor; reflexivity.
    - intros tz.
      destruct (freeze_logic_cases L tz (astimezone tz (clock W))
                  (get_input L W "freeze_start") (get_input L W "freeze_end")
                  (get_input L W "rrule") (get_input L W "duration_minutes"))
        as [[l H] | [ws H]]; exact (same_run_self _ _ _ H).
    - intros [|].
      + destruct (actor_override_cases W (get_input L W "allow_override_actor") (false, ""))
          as (ov & lines & Ha).
        eapply same_run_logs; [exact (Hactor _ _ _ Ha) | ].
        change ([] ++ lines)%list with lines.
        apply (override_frozen (unset "INPUT_ALLOW_OVERRIDE_LABEL" W) None
                 (get_input L W "allow_override_actor") (false, "") ov [] lines).
        * now apply label_not_checked.
        * exact Ha.
      + eapply same_run_logs; apply override_not_frozen. }
  destruct (Hsame init init eq_refl) as [Hx Hw].
  repeat split; [now exists line | | exact Hx | exact Hw].
  intros actor ov lines Ha. eexists. exact (Hactor _ _ _ Ha).
Qed.

(** C6. In a frozen run where the label override and the actor override are
    both configured and would both match, the label wins: the run reports
    [overridden=true] with the reason [PR label '<label>' matched] and never
    the reason of the actor; the override logic prints the label line only,
    and the actor check leaves an override already set as it is. *)
Theorem label_override_wins (L : Libs) (W : World) (tz : tzinfo) (path : string) :
  ready L W tz path ->
  frozen_run L W tz ->
  label_checked W (get_input L W "allow_override_label") = true ->
  payload_found W = true ->
  label_in_payload W (str_of (environ W "GITHUB_EVENT_PATH"))
    (str_of (get_input L W "allow_override_label")) = Ok true ->
  truthy (get_input L W "allow_override_actor") = true ->
  opt_eqb (environ W "GITHUB_ACTOR") (str_of (get_input L W "allow_override_actor")) = true ->
  reports L W "overridden" "true"
  /\ reports L W "override_reason" (label_reason (get_input L W "allow_override_label"))
  /\ ~ reports L W "override_reason" (actor_reason W)
  /\ logs (override_logic W true (get_input L W "allow_override_label")
             (get_input L W "allow_override_actor"))
       (Normal (true, label_reason (get_input L W "allow_override_label")))
       ["Override applied: " ++ label_reason (get_input L W "allow_override_label")]
  /\ forall txt,
       logs (actor_override W (get_input L W "allow_override_actor") (true, txt))
         (Normal (true, txt)) [].
Proof.
  intros [He Hz Hp] (ws & Hf & Hfrozen) Hc Hfound Hlabel Ha Hactor.
  assert (Hlogic :
            logs (override_logic W true (get_input L W "allow_override_label")
                    (get_input L W "allow_override_actor"))
              (Normal (true, label_reason (get_input L W "allow_override_label")))
              ["Override applied: " ++ label_reason (get_input L W "allow_override_label")]).
  { change [?x] with ([x] ++ [])%list.
    eapply override_frozen; [now apply label_present | apply actor_skipped]. }
  destruct (main_written L W tz ws path He Hz Hf Hp)
    as (ov & d & l2 & l3 & evs & Ho & _ & _ & Ew & Hnl & _).
  rewrite Hfrozen in Ho.
  destruct (logs_fun _ _ _ _ _ Ho Hlogic) as [Eov _]. injection Eov as ->.
  cbn [fst snd] in Ew.
  repeat split.
  - exists path. split; [exact Hp | ]. rewrite Ew. apply in_or_app. left.
    do 10 right. now left.
  - exists path. split; [exact Hp | ]. rewrite Ew. apply in_or_app. left.
    do 11 right. now left.
  - intros (q & _ & Hin). rewrite Ew in Hin.
    apply (override_reason_event L path _ _ _ ws _ _ _ _ evs Hnl) in Hin.
    unfold actor_reason, label_reason in Hin. discriminate Hin.
  - exact Hlogic.
  - intros txt. apply actor_skipped.
Qed.

(** C4, as the source has it.  With [rrule] supplied, a missing or empty
    [duration_minutes] is a fatal error: exit status 1, nothing written.  A
    [duration_minutes] that reads as zero or as a negative number is not
    rejected: the window of the most recent occurrence [O] is evaluated with
    it, has ended by now, and the run reports [is_frozen=false] and exits
    with status 0. *)
Theorem duration_checked_for_presence_only (L : Libs) (W : World) :
  truthy (get_input L W "rrule") = true ->
  (truthy (get_input L W "duration_minutes") = false ->
   exit_of L W = SysExit 1 /\ written (snd (main L W init)) = [])
  /\ (forall tz path O D,
         ready L W tz path ->
         recurrence L W tz (Some O) D ->
         D <= 0 ->
         O <= now_naive W tz ->
         representable O -> representable (O + D * usec_per_minute) ->
         reports L W "is_frozen" "false"
         /\ (summary_ready L W = true -> exit_of L W = SysExit 0)).
Proof.
  intros Hr. split.
  - intros Hd. apply fatal_errors_missing_duration; assumption.
  - intros tz path O D Hready Hrec HD Hle HO HE.
    assert (Hend : O + D * usec_per_minute <= now_naive W tz).
    { unfold usec_per_minute. lia. }
    pose proof (recurring_ended L W tz D O Hrec HO HE Hend) as Hw.
    pose proof (recurring_freeze L W tz D (Some O) no_window Hrec Hw) as Hf.
    split.
    + now apply (reports_frozen L W tz path Hready no_window false Hf).
    + intros Hsum. destruct Hready as [He Hz Hp].
      destruct (main_written L W tz no_window path He Hz Hf Hp)
        as (ov & d & l2 & l3 & evs & _ & Hd & _ & _ & _ & Hexit).
      cbn [is_frozen no_window] in Hd.
      destruct (logs_fun _ _ _ _ _ Hd (decision_not_frozen _ _ _ _ _)) as [Ed _].
      injection Ed as ->. now apply Hexit.
Qed.

(** ** The properties on the scenarios of the tests *)

(** Finds an output among those a concrete run has written. *)
Ltac written_there :=
  vm_compute; repeat first [left; reflexivity | right].

Example test_no_freeze_configured :
  exit_of Demo.libs (Demo.world [("INPUT_ENVIRONMENT", "production")] (at_time 2023 1 1 12 0))
  = SysExit 0
  /\ reports Demo.libs
       (Demo.world [("INPUT_ENVIRONMENT", "production")] (at_time 2023 1 1 12 0))
       "window_type" "NONE".
Proof.
  split; [reflexivity | ].
  exists Demo.output_file. split; [reflexivity | written_there].
Qed.

Example test_fixed_window_frozen_warn :
  exit_of Demo.libs
    (Demo.world (Demo.fixed_vars ++ [("INPUT_BEHAVIOR", "warn")]) Demo.christmas)
  = SysExit 0
  /\ reports Demo.libs
       (Demo.world (Demo.fixed_vars ++ [("INPUT_BEHAVIOR", "warn")]) Demo.christmas)
       "decision" "WARN".
Proof.
  split; [reflexivity | ].
  exists Demo.output_file. split; [reflexivity | written_there].
Qed.

Example test_recurring_window_weekend :
  exit_of Demo.libs (Demo.world (Demo.weekend_vars "1440") Demo.saturday) = SysExit 1
  /\ reports Demo.libs (Demo.world (Demo.weekend_vars "1440") Demo.saturday)
       "window_type" "RRULE".
Proof.
  split; [reflexivity | ].
  exists Demo.output_file. split; [reflexivity | written_there].
Qed.

Example test_recurring_window_not_frozen :
  exit_of Demo.libs (Demo.world (Demo.weekend_vars "1440") Demo.friday) = SysExit 0
  /\ reports Demo.libs (Demo.world (Demo.weekend_vars "1440") Demo.friday)
       "is_frozen" "false".
Proof.
  split; [reflexivity | ].
  exists Demo.output_file. split; [reflexivity | written_there].
Qed.

Example test_override_by_actor :
  exit_of Demo.libs (Demo.world (Demo.fixed_vars ++ Demo.actor_vars) Demo.christmas)
  = SysExit 0
  /\ reports Demo.libs (Demo.world (Demo.fixed_vars ++ Demo.actor_vars) Demo.christmas)
       "override_reason" "Actor 'maintainer_user' is allowed to override".
Proof.
  split; [reflexivity | ].
  exists Demo.output_file. split; [reflexivity | written_there].
Qed.

Example int_literals :
  PyInt.int " 1_440 " = Ok 1440
  /\ PyInt.int "-0" = Ok 0
  /\ PyInt.int "1__0" = Raise "invalid literal for int() with base 10: '1__0'"
  /\ PyInt.int "" = Raise "invalid literal for int() with base 10: ''".
Proof. repeat split. Qed.

(** [test_fixed_window_frozen_block]: the Christmas window blocks. *)
Lemma decision_table_complete_witness :
  exit_of Demo.libs (Demo.world Demo.fixed_vars Demo.christmas) = SysExit 1.
Proof.
  eapply (proj2 decision_table_complete Demo.libs
            (Demo.world Demo.fixed_vars Demo.christmas) Demo.utc Demo.output_file
            Demo.christmas_window (false, "") []).
  - constructor; reflexivity.
  - reflexivity.
  - apply freeze_fixed; reflexivity.
  - change [] with (@nil string ++ [])%list.
    eapply override_frozen;
      [apply label_not_checked | apply actor_not_configured]; reflexivity.
Defined.

Lemma fixed_window_inclusive_witness :
  reports Demo.libs (Demo.world Demo.fixed_vars Demo.christmas) "is_frozen" "true".
Proof.
  apply (proj1 (fixed_window_inclusive Demo.libs
                  (Demo.world Demo.fixed_vars Demo.christmas) Demo.utc Demo.output_file
                  (Demo.midnight 2023 12 24) (Demo.midnight 2023 12 26)
                  ltac:(constructor; reflexivity)
                  ltac:(repeat split; do 2 eexists; repeat split; reflexivity))).
  vm_compute. split; discriminate.
Defined.

Lemma recurrence_half_open_witness :
  reports Demo.libs (Demo.world Demo.anchored_vars Demo.saturday) "is_frozen" "true".
Proof.
  apply (proj1 (recurrence_half_open Demo.libs
                  (Demo.world Demo.anchored_vars Demo.saturday) Demo.utc Demo.output_file
                  (at_time 2023 11 4 0 0) 1440
                  ltac:(constructor; reflexivity)
                  ltac:(repeat split; eexists; split; reflexivity)
                  ltac:(vm_compute; discriminate)
                  ltac:(vm_compute; split; discriminate)
                  ltac:(vm_compute; split; discriminate)
                  ltac:(eexists; reflexivity)
                  ltac:(eexists; reflexivity))).
  vm_compute. split; [discriminate | reflexivity].
Defined.

Lemma overridden_only_if_frozen_witness :
  reports Demo.libs
    (Demo.world (Demo.fixed_vars ++ Demo.actor_vars) Demo.christmas) "is_frozen" "true".
Proof.
  apply overridden_only_if_frozen.
  exists Demo.output_file. split; [reflexivity | ].
  written_there.
Defined.

Lemma both_windows_fatal_witness :
  exit_of Demo.libs
    (Demo.world (Demo.fixed_vars ++ [("INPUT_RRULE", "FREQ=WEEKLY;BYDAY=SA")])
       Demo.christmas)
  = SysExit 1.
Proof.
  apply (both_windows_fatal Demo.libs
           (Demo.world (Demo.fixed_vars ++ [("INPUT_RRULE", "FREQ=WEEKLY;BYDAY=SA")])
              Demo.christmas)).
  reflexivity.
Defined.

Lemma fatal_errors_write_nothing_witness :
  written (snd (main Demo.libs (Demo.world Demo.bogus_rule_vars Demo.saturday) init)) = [].
Proof.
  apply (fatal_errors_write_nothing Demo.libs
           (Demo.world Demo.bogus_rule_vars Demo.saturday)).
  apply unparseable_rule; [reflexivity | ].
  intros dtstart. eexists. reflexivity.
Defined.

Lemma partial_fixed_window_ignored_witness :
  exit_of Demo.libs (Demo.world Demo.start_only_vars Demo.christmas) = SysExit 0.
Proof.
  apply (partial_fixed_window_ignored Demo.libs
           (Demo.world Demo.start_only_vars Demo.christmas) Demo.utc Demo.output_file);
    [constructor; reflexivity | reflexivity ..].
Defined.

Lemma payload_failure_is_harmless_witness :
  exit_of Demo.libs
    (Demo.world (Demo.fixed_vars ++ Demo.label_vars "lost.json") Demo.christmas)
  = exit_of Demo.libs
      (unset "INPUT_ALLOW_OVERRIDE_LABEL"
         (Demo.world (Demo.fixed_vars ++ Demo.label_vars "lost.json") Demo.christmas)).
Proof.
  apply (payload_failure_is_harmless Demo.libs
           (Demo.world (Demo.fixed_vars ++ Demo.label_vars "lost.json") Demo.christmas)).
  - reflexivity.
  - left. reflexivity.
Defined.

Lemma label_override_wins_witness :
  reports Demo.libs
    (Demo.world (Demo.fixed_vars ++ Demo.label_vars "event.json" ++ Demo.actor_vars)
       Demo.christmas)
    "override_reason" "PR label 'hotfix-override' matched".
Proof.
  apply (label_override_wins Demo.libs
           (Demo.world (Demo.fixed_vars ++ Demo.label_vars "event.json" ++ Demo.actor_vars)
              Demo.christmas) Demo.utc Demo.output_file);
    try reflexivity.
  - constructor; reflexivity.
  - eexists. split; [apply freeze_fixed; reflexivity | reflexivity].
Defined.

Lemma duration_checked_for_presence_only_witness :
  reports Demo.libs (Demo.world (Demo.weekend_vars "0") Demo.saturday) "is_frozen" "false".
Proof.
  apply (proj2 (duration_checked_for_presence_only Demo.libs
                  (Demo.world (Demo.weekend_vars "0") Demo.saturday) eq_refl)
           Demo.utc Demo.output_file Demo.saturday 0).
  - constructor; reflexivity.
  - repeat split. eexists. split; reflexivity.
  - discriminate.
  - vm_compute. discriminate.
  - vm_compute. split; discriminate.
  - vm_compute. split; discriminate.
Defined.

(** C2, as the specification has it, fails: on the Saturday run of the
    weekly rule with a duration of 99999999999 minutes, now lies in
    [[O, O + D)] and yet nothing is reported frozen; the end of the window
    is past the last [datetime], the addition of line 148 raises, and the run
    is a fatal error with nothing written. *)
Lemma long_window_not_frozen :
  recurrence Demo.libs (Demo.world (Demo.weekend_vars "99999999999") Demo.saturday)
    Demo.utc (Some Demo.saturday) 99999999999
  /\ Demo.saturday
     <= now_naive (Demo.world (Demo.weekend_vars "99999999999") Demo.saturday) Demo.utc
     < Demo.saturday + 99999999999 * usec_per_minute
  /\ exit_of Demo.libs (Demo.world (Demo.weekend_vars "99999999999") Demo.saturday)
     = SysExit 1
  /\ written (snd (main Demo.libs
                     (Demo.world (Demo.weekend_vars "99999999999") Demo.saturday) init))
     = []
  /\ ~ reports Demo.libs (Demo.world (Demo.weekend_vars "99999999999") Demo.saturday)
         "is_frozen" "true".
Proof.
  split; [repeat split; eexists; split; reflexivity | ].
  split; [vm_compute; split; [discriminate | reflexivity] | ].
  split; [reflexivity | ]. split; [reflexivity | ].
  intros (q & _ & Hin). vm_compute in Hin. exact Hin.
Qed.

(** C4, as the specification has it, fails: with [duration_minutes] set to
    [0], and to [-5], the Saturday run of the weekly rule is not a fatal
    error; it writes its outputs, [is_frozen=false] among them, and exits
    with status 0. *)
Lemma nonpositive_duration_not_fatal :
  PyInt.int "0" = Ok 0
  /\ PyInt.int "-5" = Ok (-5)
  /\ exit_of Demo.libs (Demo.world (Demo.weekend_vars "0") Demo.saturday) = SysExit 0
  /\ exit_of Demo.libs (Demo.world (Demo.weekend_vars "-5") Demo.saturday) = SysExit 0
  /\ exit_of Demo.libs (Demo.world (Demo.weekend_vars "0") Demo.saturday) <> SysExit 1
  /\ In (Demo.output_file, "is_frozen=false" ++ nl)
       (written (snd (main Demo.libs (Demo.world (Demo.weekend_vars "0") Demo.saturday) init))).
Proof.
  repeat split; try reflexivity.
  - discriminate.
  - vm_compute. left. reflexivity.
Qed.

(** ** Further properties: reading the inputs *)

Lemma upper_upper_char (c : ascii) : upper_char (upper_char c) = upper_char c.
Proof. destruct c as [[] [] [] [] [] [] [] []]; reflexivity. Qed.

Lemma upper_lower_char (c : ascii) : upper_char (lower_char c) = upper_char c.
Proof. destruct c as [[] [] [] [] [] [] [] []]; reflexivity. Qed.

Lemma upper_upper (s : string) : upper (upper s) = upper s.
Proof.
  induction s as [| c s IH]; [reflexivity | ].
  unfold upper in *. cbn [map_string]. now rewrite upper_upper_char, IH.
Qed.

Lemma upper_lower (s : string) : upper (lower s) = upper s.
Proof.
  induction s as [| c s IH]; [reflexivity | ].
  unfold upper, lower in *. cbn [map_string]. now rewrite upper_lower_char, IH.
Qed.

Lemma is_ascii_upper (s : string) : is_ascii s = true -> is_ascii (upper s) = true.
Proof.
  induction s as [| c s IH]; [reflexivity | ].
  unfold upper in *. cbn [map_string is_ascii]. rewrite !andb_true_iff.
  intros [Hc Hs]. split; [ | now apply IH].
  revert Hc. destruct c as [[] [] [] [] [] [] [] []]; vm_compute; congruence.
Qed.

Lemma is_ascii_lower (s : string) : is_ascii s = true -> is_ascii (lower s) = true.
Proof.
  induction s as [| c s IH]; [reflexivity | ].
  unfold lower in *. cbn [map_string is_ascii]. rewrite !andb_true_iff.
  intros [Hc Hs]. split; [ | now apply IH].
  revert Hc. destruct c as [[] [] [] [] [] [] [] []]; vm_compute; congruence.
Qed.

(** X1. An input whose name is written in ASCII is read without regard to
    the case of its letters: [get_input] finds the same variable for the
    name, for its upper case and for its lower case, with and without a
    default. *)
Theorem get_input_any_case (L : Libs) (W : World) (name : string) :
  is_ascii name = true ->
  get_input L W (upper name) = get_input L W name
  /\ get_input L W (lower name) = get_input L W name
  /\ (forall d, get_input_or L W (upper name) d = get_input_or L W name d)
  /\ (forall d, get_input_or L W (lower name) d = get_input_or L W name d).
Proof.
  intros Hname. unfold get_input, get_input_or, str_upper.
  rewrite Hname, (is_ascii_upper name Hname), (is_ascii_lower name Hname).
  rewrite upper_upper, upper_lower. auto.
Qed.

(** ** Further properties: the labels of the event payload *)

Section Labels.

Variable W : World.
Variables event_path label : string.
Variable fields : list (string * json).
Hypothesis Hread : read_json W event_path = Ok (JObj fields).

(** A label entry that is an object whose [name] is the string [n]. *)
Local Abbreviation named l n :=
  (exists f, l = JObj f /\ Json.lookup "name" f = Some (JStr n)).

Lemma names_of_named ls ns :
  Forall2 (fun l n => named l n) ls ns -> Json.names ls = Ok (map JStr ns).
Proof.
  induction 1 as [| l n ls ns (f & -> & Hn) _ IH]; [reflexivity | ].
  cbn [Json.names Json.item]. rewrite Hn. cbn [rbind]. now rewrite IH.
Qed.

Lemma contains_names ns : Json.contains label (map JStr ns) = true <-> In label ns.
Proof.
  unfold Json.contains. rewrite existsb_exists. split.
  - intros (v & Hin & Hv). apply in_map_iff in Hin. destruct Hin as (n & <- & Hin).
    cbn in Hv. apply String.eqb_eq in Hv. now subst.
  - intros Hin. exists (JStr label). split; [now apply in_map | ].
    cbn. apply String.eqb_refl.
Qed.

Lemma names_raise l ls :
  In l ls -> (forall v, Json.item l "name" <> Ok v) ->
  exists msg, Json.names ls = Raise msg.
Proof.
  intros Hin Hbad. induction ls as [| x ls IH]; [contradiction | ].
  cbn [Json.names]. destruct (Json.item x "name") as [v | msg] eqn:Hx.
  - destruct Hin as [-> | Hin]; [now elim (Hbad v) | ].
    destruct (IH Hin) as [msg ->]. cbn [rbind]. now eexists.
  - cbn [rbind]. now eexists.
Qed.

End Labels.

(** X2. On a payload whose [pull_request.labels] is a list of objects with a
    string [name], the label check answers without raising, and answers yes
    exactly when the configured label is one of those names, compared as a
    whole and with its case. *)
Theorem label_matches_exactly (W : World) (event_path label : string)
    (fields pr : list (string * json)) (ls : list json) (names : list string) :
  read_json W event_path = Ok (JObj fields) ->
  Json.lookup "pull_request" fields = Some (JObj pr) ->
  Json.lookup "labels" pr = Some (JArr ls) ->
  Forall2 (fun l n => exists f, l = JObj f /\ Json.lookup "name" f = Some (JStr n))
    ls names ->
  exists b,
    label_in_payload W event_path label = Ok b /\ (b = true <-> In label names).
Proof.
  intros Hread Hpr Hls Hnames.
  exists (Json.contains label (map JStr names)). split.
  - unfold label_in_payload, pr_labels. rewrite Hread. cbn [rbind Json.get].
    rewrite Hpr. cbn [rbind Json.get]. rewrite Hls. cbn [rbind Json.iter].
    now rewrite (names_of_named ls names Hnames).
  - apply contains_names.
Qed.

(** X3. A payload without [pull_request], or whose [pull_request] has no
    [labels], is read as a pull request without labels: the label check
    answers no and does not raise. *)
Theorem payload_without_labels (W : World) (event_path label : string)
    (fields : list (string * json)) :
  read_json W event_path = Ok (JObj fields) ->
  Json.lookup "pull_request" fields = None
  \/ (exists pr,
         Json.lookup "pull_request" fields = Some (JObj pr)
         /\ Json.lookup "labels" pr = None) ->
  label_in_payload W event_path label = Ok false.
Proof.
  intros Hread [Hpr | (pr & Hpr & Hls)];
    unfold label_in_payload, pr_labels; rewrite Hread; cbn [rbind Json.get];
    rewrite Hpr; cbn [rbind Json.get Json.lookup];
    [ | rewrite Hls ]; reflexivity.
Qed.

(** X4. One entry of [pull_request.labels] from which no [name] can be taken
    makes the whole label check raise, whatever the other entries are: the
    configured label is then not found even when another entry carries it. *)
Theorem nameless_label_spoils_check (W : World) (event_path label : string)
    (fields pr : list (string * json)) (ls : list json) (l : json) :
  read_json W event_path = Ok (JObj fields) ->
  Json.lookup "pull_request" fields = Some (JObj pr) ->
  Json.lookup "labels" pr = Some (JArr ls) ->
  In l ls ->
  (forall v, Json.item l "name" <> Ok v) ->
  exists msg, label_in_payload W event_path label = Raise msg.
Proof.
  intros Hread Hpr Hls Hin Hbad.
  destruct (names_raise l ls Hin Hbad) as [msg Hmsg].
  exists msg. unfold label_in_payload, pr_labels. rewrite Hread. cbn [rbind Json.get].
  rewrite Hpr. cbn [rbind Json.get]. rewrite Hls. cbn [rbind Json.iter].
  now rewrite Hmsg.
Qed.

(** ** Further properties: what the phases can return *)

Section Returned.

Variable L : Libs.
Variable tz : tzinfo.
Variable now_local : aware.

Lemma localize_wall w a : localize tz w = Ok a -> wall a = w.
Proof.
  unfold localize. destruct (tz_localize tz w); cbn [rbind]; [ | discriminate].
  now intros [= <-].
Qed.

Lemma fixed_window_inv s e ws :
  fixed_window L tz now_local s e = Ok ws ->
  ws = no_window
  \/ exists a b,
       ws = frozen_fixed a b /\ instant a <= instant now_local <= instant b.
Proof.
  unfold fixed_window.
  destruct (parser_parse L s) as [ds |]; cbn [rbind]; [ | discriminate].
  destruct (parser_parse L e) as [de |]; cbn [rbind]; [ | discriminate].
  destruct (localize_if_naive tz ds) as [a |]; cbn [rbind]; [ | discriminate].
  destruct (localize_if_naive tz de) as [b |]; cbn [rbind]; [ | discriminate].
  destruct (aware_le a now_local && aware_le now_local b)%bool eqn:Hin;
    intros [= <-]; [right | now left].
  exists a, b. split; [reflexivity | ].
  apply andb_true_iff in Hin. unfold aware_le in Hin. rewrite !Z.leb_le in Hin. lia.
Qed.

Lemma recurring_window_inv r d ws :
  recurring_window L tz now_local r d = Ok ws ->
  ws = no_window
  \/ exists a b, ws = frozen_recurring a b /\ wall now_local < wall b.
Proof.
  unfold recurring_window.
  destruct (builtin_int L d) as [n |]; cbn [rbind]; [ | discriminate].
  destruct (rrulestr L r (wall now_local)) as [rule |]; cbn [rbind]; [ | discriminate].
  destruct (before rule (wall now_local) true) as [[O |] |]; cbn [rbind];
    [ | now left; congruence | discriminate].
  destruct (timedelta_minutes n) as [td |]; cbn [rbind]; [ | discriminate].
  destruct (datetime_add O td) as [w_end |]; cbn [rbind]; [ | discriminate].
  destruct (wall now_local <? w_end) eqn:Hlt; [ | now left; congruence].
  destruct (localize tz O) as [a |] eqn:La; cbn [rbind]; [ | discriminate].
  destruct (localize tz w_end) as [b |] eqn:Lb; cbn [rbind]; [ | discriminate].
  intros [= <-]. right. exists a, b. split; [reflexivity | ].
  apply localize_wall in Lb. apply Z.ltb_lt in Hlt. lia.
Qed.

(** Whatever the freeze logic returns is the initial state, a fixed window
    that contains now, or a recurring window that has not ended. *)
Lemma freeze_logic_inv fs fe rr dur ws lines :
  logs (freeze_logic L tz now_local fs fe rr dur) (Normal ws) lines ->
  ws = no_window
  \/ (truthy fs = true /\ truthy fe = true
      /\ exists a b,
           ws = frozen_fixed a b /\ instant a <= instant now_local <= instant b)
  \/ (truthy rr = true
      /\ exists a b, ws = frozen_recurring a b /\ wall now_local < wall b).
Proof.
  intros H.
  destruct (fixed_window L tz now_local (str_of fs) (str_of fe)) as [w1 | m1] eqn:Hfix;
    destruct (recurring_window L tz now_local (str_of rr) (str_of dur))
      as [w2 | m2] eqn:Hrec;
    destruct (truthy fs) eqn:Hfs; destruct (truthy fe) eqn:Hfe;
    destruct (truthy rr) eqn:Hr; destruct (truthy dur) eqn:Hd;
    first
      [ assert (H' : logs (freeze_logic L tz now_local fs fe rr dur) (Normal w1) [])
          by (apply freeze_fixed; [guards | guards | exact Hfix]);
        destruct (logs_fun _ _ _ _ _ H H') as [[= ->] _];
        destruct (fixed_window_inv _ _ _ Hfix) as [-> | Hw]; [now left | right; left; auto]
      | assert (H' : logs (freeze_logic L tz now_local fs fe rr dur) (Normal w2) [])
          by (apply freeze_recurring; [guards .. | exact Hrec]);
        destruct (logs_fun _ _ _ _ _ H H') as [[= ->] _];
        destruct (recurring_window_inv _ _ _ Hrec) as [-> | Hw];
        [now left | right; right; auto]
      | assert (H' : logs (freeze_logic L tz now_local fs fe rr dur) (Normal no_window) [])
          by (apply freeze_nothing; guards);
        destruct (logs_fun _ _ _ _ _ H H') as [[= ->] _]; now left
      | exfalso;
        assert (H' : exists l, logs (freeze_logic L tz now_local fs fe rr dur) (SysExit 1) l)
          by (eexists;
              solve [ eapply freeze_both; guards
                    | eapply freeze_fixed_raise; [guards | guards | eassumption]
                    | eapply freeze_no_duration; guards
                    | eapply freeze_recurring_raise; [guards .. | eassumption] ]);
        destruct H' as [l H']; destruct (logs_fun _ _ _ _ _ H H') as [E _];
        discriminate E ].
Qed.

End Returned.

Section OverrideReturned.

Variable W : World.
Variables label actor : option string.

(** Whatever the override logic returns is no override, the override of the
    label, or the override of a configured actor that is the running one. *)
Lemma override_logic_inv frozen ov lines :
  logs (override_logic W frozen label actor) (Normal ov) lines ->
  ov = (false, "")
  \/ (frozen = true /\ ov = (true, label_reason label))
  \/ (frozen = true /\ ov = (true, actor_reason W)
      /\ truthy actor = true
      /\ opt_eqb (environ W "GITHUB_ACTOR") (str_of actor) = true).
Proof.
  intros H. destruct frozen.
  2:{ destruct (logs_fun _ _ _ _ _ H (override_not_frozen W label actor)) as [[= ->] _].
      now left. }
  destruct (label_override_cases W label) as (ov1 & l1 & H1 & [-> | ->]).
  - destruct (truthy actor) eqn:Ha.
    + destruct (opt_eqb (environ W "GITHUB_ACTOR") (str_of actor)) eqn:He.
      * pose proof (override_frozen W label actor _ _ _ _ H1
                      (actor_matches W actor "" Ha He)) as H'.
        destruct (logs_fun _ _ _ _ _ H H') as [[= ->] _]. right. right. auto.
      * pose proof (override_frozen W label actor _ _ _ _ H1
                      (actor_differs W actor "" He)) as H'.
        destruct (logs_fun _ _ _ _ _ H H') as [[= ->] _]. now left.
    + pose proof (override_frozen W label actor _ _ _ _ H1
                    (actor_not_configured W actor (false, "") Ha)) as H'.
      destruct (logs_fun _ _ _ _ _ H H') as [[= ->] _]. now left.
  - pose proof (override_frozen W label actor _ _ _ _ H1
                  (actor_skipped W actor (label_reason label))) as H'.
    destruct (logs_fun _ _ _ _ _ H H') as [[= ->] _]. right. left. auto.
Qed.

End OverrideReturned.

(** ** Further properties: how a run ends *)

Section Ending.

Variable L : Libs.
Variable W : World.

Lemma write_summary_unready a b c frozen dec wd od st :
  summary_ready L W = false ->
  write_summary L W a b c frozen dec wd od st
  = (Uncaught "KeyError: 'GITHUB_STEP_SUMMARY'", st).
Proof.
  unfold summary_ready, write_summary.
  destruct (String.eqb (str_lower L (get_input_or L W "summary" "true")) "true");
    cbn [negb orb]; [ | discriminate].
  destruct (environ W "GITHUB_STEP_SUMMARY"); cbn [truthy_path]; [discriminate | ].
  reflexivity.
Qed.

(** A summary that is ready appends at most one text, to the file that
    [GITHUB_STEP_SUMMARY] names. *)
Lemma write_summary_ready a b c frozen dec wd od st :
  summary_ready L W = true ->
  exists evs,
    write_summary L W a b c frozen dec wd od st
    = (Normal tt, {| stdout := stdout st; written := written st ++ evs |})
    /\ (List.length evs <= 1)%nat
    /\ (forall q t, In (q, t) evs ->
          environ W "GITHUB_STEP_SUMMARY" = Some q /\ exists r, t = nl ++ r).
Proof.
  unfold summary_ready, write_summary.
  destruct (String.eqb (str_lower L (get_input_or L W "summary" "true")) "true");
    cbn [negb orb].
  2:{ intros _. exists []. rewrite app_nil_r. destruct st.
      split; [reflexivity | split; [cbn; lia | intros q t []]]. }
  destruct (environ W "GITHUB_STEP_SUMMARY") as [path |]; cbn [truthy_path];
    [intros _ | discriminate].
  eexists [_]. split; [reflexivity | split; [cbn; lia | ]].
  intros q t [[= <- <-] | []]. split; [reflexivity | ].
  destruct (negb (String.eqb wd "")), (negb (String.eqb od ""));
    cbv zeta; eexists; reflexivity.
Qed.

Variable env_name : string.
Variables now_local now_utc : aware.
Variable ws : window_state.
Variable ov : bool * string.
Variable d : string * Z * string.
Variable fail_msg path : string.
Hypothesis Hpath : environ W "GITHUB_OUTPUT" = Some path.

Local Abbreviation the_outputs :=
  (output_events L path env_name now_local now_utc ws
     (fst (fst d)) (snd d) (fst ov) (snd ov)).

Lemma finish_unready st :
  summary_ready L W = false ->
  finish L W env_name now_local now_utc ws ov d fail_msg st
  = (Uncaught "KeyError: 'GITHUB_STEP_SUMMARY'",
     {| stdout := stdout st; written := written st ++ the_outputs |}).
Proof.
  intros Hs. unfold finish.
  erewrite bind_normal by (apply outputs_to; exact Hpath).
  erewrite bind_uncaught; [reflexivity | ].
  unfold summary. now apply write_summary_unready.
Qed.

Lemma finish_ready st :
  summary_ready L W = true ->
  exists evs,
    fst (finish L W env_name now_local now_utc ws ov d fail_msg st)
    = SysExit (snd (fst d))
    /\ written (snd (finish L W env_name now_local now_utc ws ov d fail_msg st))
       = (written st ++ the_outputs ++ evs)%list
    /\ (List.length evs <= 1)%nat
    /\ (forall q t, In (q, t) evs ->
          environ W "GITHUB_STEP_SUMMARY" = Some q /\ exists r, t = nl ++ r).
Proof.
  intros Hs. unfold finish.
  erewrite bind_normal by (apply outputs_to; exact Hpath).
  unfold summary.
  match goal with
  | |- context [write_summary L W ?a ?b ?c ?f ?dec ?wd ?od] =>
      destruct (write_summary_ready a b c f dec wd od
                  {| stdout := stdout st; written := written st ++ the_outputs |} Hs)
        as (evs & Hw & Hlen & Hq)
  end.
  cbn [stdout written] in Hw.
  exists evs. erewrite bind_normal by exact Hw.
  destruct (negb (snd (fst d) =? 0)); unfold bind, print, ret, sys_exit;
    cbn [fst snd written stdout]; rewrite <- app_assoc; auto.
Qed.

End Ending.

Lemma run_ending (L : Libs) (W : World) : ending L W.
Proof.
  destruct (main_cases L W)
    as [[lines Hfatal] | (tz & ws & ov & d & lines & He & Hz & Hf & _ & [l2 Ho] & [l3 Hd] & Hmain)].
  { destruct (fatal_run L W lines Hfatal). now apply ends_fatal. }
  destruct (environ W "GITHUB_OUTPUT") as [path |] eqn:Hp.
  2:{ apply ends_without_output; [exact Hp | | ]; unfold exit_of;
        rewrite Hmain, finish_unset by exact Hp; reflexivity. }
  destruct (summary_ready L W) eqn:Hs.
  - destruct (finish_ready L W (str_of (get_input L W "environment"))
                (astimezone tz (clock W)) {| wall := clock W; utcoffset := 0 |}
                ws ov d
                (get_input_or L W "fail_message"
                   "Release freeze is active. Deployment prevented.")
                path Hp
                {| stdout := stdout init ++ lines; written := written init |} Hs)
      as (evs & Hx & Hw & Hlen & Hq).
    eapply (ends_reported L W tz path ws ov d l2 l3 evs); eauto.
    + now constructor.
    + rewrite Hmain. exact Hw.
    + left. split; [exact Hs | ]. unfold exit_of. rewrite Hmain. exact Hx.
  - eapply (ends_reported L W tz path ws ov d l2 l3 []); eauto.
    + now constructor.
    + rewrite Hmain, (finish_unready L W _ _ _ ws ov d _ path Hp _ Hs).
      cbn [snd written init app]. now rewrite app_nil_r.
    + intros q t [].
    + right. split; [exact Hs | split; [ | reflexivity]]. unfold exit_of.
      now rewrite Hmain, (finish_unready L W _ _ _ ws ov d _ path Hp _ Hs).
Qed.

Lemma decision_inv (frozen overridden : bool) (behavior fail_msg rsn txt : string) d lines :
  logs (decision frozen overridden behavior fail_msg rsn txt) (Normal d) lines ->
  (frozen = false /\ d = ("ALLOW", 0, rsn))
  \/ (frozen = true /\ overridden = true
      /\ d = ("ALLOW", 0, "Frozen but overridden: " ++ txt))
  \/ (frozen = true /\ overridden = false /\ behavior = "block"
      /\ d = ("BLOCK", 1, rsn))
  \/ (frozen = true /\ overridden = false /\ behavior = "warn"
      /\ d = ("WARN", 0, rsn))
  \/ (frozen = true /\ overridden = false /\ d = ("ALLOW", 0, rsn)).
Proof.
  intros H. destruct frozen.
  2:{ destruct (logs_fun _ _ _ _ _ H (decision_not_frozen fail_msg rsn txt _ _))
        as [[= ->] _]. auto. }
  destruct overridden.
  { destruct (logs_fun _ _ _ _ _ H (decision_overridden fail_msg rsn txt _))
      as [[= ->] _]. right. left. auto. }
  destruct (String.eqb behavior "block") eqn:Hb.
  { apply String.eqb_eq in Hb. subst.
    destruct (logs_fun _ _ _ _ _ H (decision_block fail_msg rsn txt)) as [[= ->] _].
    right. right. left. auto. }
  destruct (String.eqb behavior "warn") eqn:Hw.
  { apply String.eqb_eq in Hw. subst.
    destruct (logs_fun _ _ _ _ _ H (decision_warn fail_msg rsn txt)) as [[= ->] _].
    do 3 right. left. auto. }
  destruct (logs_fun _ _ _ _ _ H (decision_fallthrough fail_msg rsn txt _ Hb Hw))
    as [[= ->] _].
  do 4 right. auto.
Qed.

(** A run that reports anything has reached its outputs. *)
Lemma reports_inv (L : Libs) (W : World) (name value : string) :
  reports L W name value ->
  exists tz path ws ov d l2 l3 evs,
    ready L W tz path
    /\ logs (freeze_logic L tz (astimezone tz (clock W))
               (get_input L W "freeze_start") (get_input L W "freeze_end")
               (get_input L W "rrule") (get_input L W "duration_minutes"))
         (Normal ws) []
    /\ logs (override_logic W (is_frozen ws) (get_input L W "allow_override_label")
               (get_input L W "allow_override_actor"))
         (Normal ov) l2
    /\ logs (decision (is_frozen ws) (fst ov) (str_lower L (get_input_or L W "behavior" "block"))
               (get_input_or L W "fail_message"
                  "Release freeze is active. Deployment prevented.")
               (reason ws) (snd ov))
         (Normal d) l3
    /\ written (snd (main L W init))
       = (output_events L path (str_of (get_input L W "environment"))
            (astimezone tz (clock W)) {| wall := clock W; utcoffset := 0 |} ws
            (fst (fst d)) (snd d) (fst ov) (snd ov) ++ evs)%list
    /\ (forall q t, In (q, t) evs -> exists r, t = nl ++ r)
    /\ (exit_of L W = SysExit (snd (fst d))
        \/ exit_of L W = Uncaught "KeyError: 'GITHUB_STEP_SUMMARY'")
    /\ In (path, name ++ "=" ++ value ++ nl)
         (output_events L path (str_of (get_input L W "environment"))
            (astimezone tz (clock W)) {| wall := clock W; utcoffset := 0 |} ws
            (fst (fst d)) (snd d) (fst ov) (snd ov) ++ evs)%list.
Proof.
  intros (q & Hq & Hin).
  destruct (run_ending L W)
    as [_ Hw | Hnone _ _ | tz path ws ov d l2 l3 evs Hready Hf Ho Hd Ew _ Hsum Hexit].
  - rewrite Hw in Hin. contradiction.
  - congruence.
  - exists tz, path, ws, ov, d, l2, l3, evs.
    assert (q = path) as -> by (destruct Hready; congruence).
    rewrite Ew in Hin.
    refine (conj Hready (conj Hf (conj Ho (conj Hd (conj Ew (conj _ (conj _ Hin))))))).
    + intros q t Ht. now apply Hsum in Ht.
    + destruct Hexit as [[_ E] | (_ & E & _)]; auto.
Qed.

(** X5. A run never returns from [main], and when it ends through
    [sys.exit] the status is 0 or 1; every other ending is an exception that
    nothing catches. *)
Theorem run_exit_statuses (L : Libs) (W : World) :
  (forall a, exit_of L W <> Normal a)
  /\ (forall c, exit_of L W = SysExit c -> c = 0 \/ c = 1).
Proof.
  assert (H : exit_of L W = SysExit 0 \/ exit_of L W = SysExit 1
              \/ exists e, exit_of L W = Uncaught e).
  { destruct (run_ending L W)
      as [Hx _ | _ Hx _ | tz path ws ov d l2 l3 evs _ _ _ Hd _ _ _ Hexit];
      [auto | right; right; eexists; exact Hx | ].
    destruct Hexit as [[_ E] | (_ & E & _)]; [ | right; right; eexists; exact E].
    rewrite E.
    destruct (decision_inv _ _ _ _ _ _ _ _ Hd)
      as [(_ & ->) | [(_ & _ & ->) | [(_ & _ & _ & ->) | [(_ & _ & _ & ->) | (_ & _ & ->)]]]];
      cbn [fst snd]; auto. }
  split.
  - intros a Ha. destruct H as [H | [H | [e H]]]; congruence.
  - intros c Hc. destruct H as [H | [H | [e H]]]; rewrite H in Hc;
      [injection Hc as <-; now left | injection Hc as <-; now right | discriminate].
Qed.

(** Names the five ways the decision block can have gone. *)
Ltac decided Hd :=
  let Hfr := fresh "Hfrozen" in
  let Hov := fresh "Hoverridden" in
  let Hbe := fresh "Hbehavior" in
  destruct (decision_inv _ _ _ _ _ _ _ _ Hd)
    as [(Hfr & ->)
       | [(Hfr & Hov & ->)
         | [(Hfr & Hov & Hbe & ->)
           | [(Hfr & Hov & Hbe & ->)
             | (Hfr & Hov & ->)]]]];
  cbn [fst snd] in *;
  try rewrite Hfr in *; try rewrite Hov in *.

(** Shows the output at place [n] of lines 214-225 as reported. *)
Tactic Notation "reported" constr(path) constr(Hp) constr(Ew) integer(n) :=
  exists path; split;
  [ exact Hp
  | rewrite Ew; apply in_or_app; left; unfold output_events;
    repeat match goal with
           | H : is_frozen _ = _ |- _ => rewrite H
           end;
    do n right; left; reflexivity ].

(** X6. What the exit status tells: status 1 comes from a fatal input error
    with nothing written or from a reported BLOCK; status 0 comes only with a
    reported ALLOW or WARN; and a run that reports BLOCK never exits with
    status 0. *)
Theorem exit_status_meaning (L : Libs) (W : World) :
  (exit_of L W = SysExit 1 ->
   written (snd (main L W init)) = [] \/ reports L W "decision" "BLOCK")
  /\ (exit_of L W = SysExit 0 ->
      reports L W "decision" "ALLOW" \/ reports L W "decision" "WARN")
  /\ (reports L W "decision" "BLOCK" -> exit_of L W <> SysExit 0).
Proof.
  repeat split.
  - intros Hx.
    destruct (run_ending L W)
      as [_ Hw | _ Hx' _ | tz path ws ov d l2 l3 evs [_ _ Hp] _ _ Hd Ew _ _ Hexit];
      [now left | congruence | right].
    destruct Hexit as [[_ E] | (_ & E & _)]; [ | congruence].
    rewrite E in Hx. decided Hd; try discriminate Hx.
    reported path Hp Ew 1.
  - intros Hx.
    destruct (run_ending L W)
      as [Hx' _ | _ Hx' _ | tz path ws ov d l2 l3 evs [_ _ Hp] _ _ Hd Ew _ _ Hexit];
      [congruence | congruence | ].
    destruct Hexit as [[_ E] | (_ & E & _)]; [ | congruence].
    rewrite E in Hx. decided Hd; try discriminate Hx;
      solve [ left; reported path Hp Ew 1 | right; reported path Hp Ew 1 ].
  - intros Hr Hx.
    destruct (reports_inv L W _ _ Hr)
      as (tz & path & ws & ov & d & l2 & l3 & evs & _ & _ & _ & Hd & _ & Hnl & Hexit & Hin).
    apply (decision_event L path _ _ _ ws _ _ _ _ evs Hnl) in Hin.
    destruct Hexit as [E | E]; [ | congruence].
    rewrite E in Hx. decided Hd; try discriminate Hx; discriminate Hin.
Qed.

(** X7. A freeze is enforced only on a frozen window that nothing overrides:
    a run that reports BLOCK also reports [is_frozen=true] and
    [overridden=false] and was configured with behaviour [block] (in any
    letter case); a run that reports WARN reports the same two flags and was
    configured with behaviour [warn]. *)
Theorem enforced_only_when_frozen (L : Libs) (W : World) :
  (reports L W "decision" "BLOCK" ->
   reports L W "is_frozen" "true" /\ reports L W "overridden" "false"
   /\ str_lower L (get_input_or L W "behavior" "block") = "block")
  /\ (reports L W "decision" "WARN" ->
      reports L W "is_frozen" "true" /\ reports L W "overridden" "false"
      /\ str_lower L (get_input_or L W "behavior" "block") = "warn").
Proof.
  split; intros Hr;
    destruct (reports_inv L W _ _ Hr)
      as (tz & path & ws & ov & d & l2 & l3 & evs & [_ _ Hp] & _ & _ & Hd & Ew & Hnl & _ & Hin);
    apply (decision_event L path _ _ _ ws _ _ _ _ evs Hnl) in Hin;
    decided Hd; try discriminate Hin;
    (split; [ | split ]);
    [ reported path Hp Ew 0 | reported path Hp Ew 10 | assumption
    | reported path Hp Ew 0 | reported path Hp Ew 10 | assumption ].
Qed.

(** X8. An override that is reported always comes with the decision ALLOW,
    and its text is the one of the label or the one of the actor; the reason
    output repeats it after [Frozen but overridden: ]. *)
Theorem reported_override_allows (L : Libs) (W : World) :
  reports L W "overridden" "true" ->
  reports L W "decision" "ALLOW"
  /\ exists txt,
       (txt = label_reason (get_input L W "allow_override_label")
        \/ txt = actor_reason W)
       /\ reports L W "override_reason" txt
       /\ reports L W "reason" ("Frozen but overridden: " ++ txt).
Proof.
  intros Hr.
  destruct (reports_inv L W _ _ Hr)
    as (tz & path & ws & ov & d & l2 & l3 & evs & [_ _ Hp] & _ & Ho & Hd & Ew & Hnl & _ & Hin).
  apply (overridden_event L path _ _ _ ws _ _ _ _ evs Hnl path true) in Hin.
  destruct Hin as [_ Hov].
  destruct (override_logic_inv W _ _ _ _ _ Ho)
    as [-> | [(Htrue & ->) | (Htrue & -> & _)]]; [discriminate Hov | | ];
    cbn [fst snd] in *; decided Hd; try congruence.
  all: split; [reported path Hp Ew 1 | ].
  all: eexists; split; [ | split; [reported path Hp Ew 11 | reported path Hp Ew 7]].
  - left. reflexivity.
  - right. reflexivity.
Qed.

(** X9. A run that reports [is_frozen=false] reports no window at all:
    [window_type=NONE], empty [window_name], [freeze_start] and [freeze_end],
    the reason [No active freeze window], no override, and the decision
    ALLOW. *)
Theorem not_frozen_reports_no_window (L : Libs) (W : World) :
  reports L W "is_frozen" "false" ->
  reports L W "window_type" "NONE"
  /\ reports L W "window_name" ""
  /\ reports L W "freeze_start" ""
  /\ reports L W "freeze_end" ""
  /\ reports L W "reason" "No active freeze window"
  /\ reports L W "overridden" "false"
  /\ reports L W "override_reason" ""
  /\ reports L W "decision" "ALLOW".
Proof.
  intros Hr.
  destruct (reports_inv L W _ _ Hr)
    as (tz & path & ws & ov & d & l2 & l3 & evs & [_ _ Hp] & Hf & Ho & Hd & Ew & Hnl & _ & Hin).
  apply (frozen_event L path _ _ _ ws _ _ _ _ evs Hnl path false) in Hin.
  destruct Hin as [_ Hfrozen].
  destruct (freeze_logic_inv L tz _ _ _ _ _ ws _ Hf)
    as [-> | [(_ & _ & a & b & -> & _) | (_ & a & b & -> & _)]];
    try discriminate Hfrozen.
  cbn [is_frozen no_window] in Ho, Hd.
  destruct (logs_fun _ _ _ _ _ Ho (override_not_frozen W _ _)) as [[= ->] _].
  destruct (logs_fun _ _ _ _ _ Hd (decision_not_frozen _ _ _ _ _)) as [[= ->] _].
  cbn [fst snd] in Ew.
  repeat split;
    [ reported path Hp Ew 5 | reported path Hp Ew 6
    | reported path Hp Ew 8 | reported path Hp Ew 9
    | reported path Hp Ew 7 | reported path Hp Ew 10
    | reported path Hp Ew 11 | reported path Hp Ew 1 ].
Qed.

(** X10. A run that reports [is_frozen=true] reports which window froze it
    and the bounds of that window: a fixed window, configured with both
    bounds, that contains now, bounds included; or a recurring window,
    configured with a rule, whose end is still ahead of now. *)
Theorem frozen_reports_its_window (L : Libs) (W : World) :
  reports L W "is_frozen" "true" ->
  exists tz a b,
    pytz_timezone L (get_input_or L W "timezone" "UTC") = Some tz
    /\ reports L W "freeze_start" (dt_isoformat L a)
    /\ reports L W "freeze_end" (dt_isoformat L b)
    /\ (reports L W "window_type" "FIXED"
        /\ truthy (get_input L W "freeze_start") = true
        /\ truthy (get_input L W "freeze_end") = true
        /\ instant a <= clock W <= instant b
        \/ reports L W "window_type" "RRULE"
           /\ truthy (get_input L W "rrule") = true
           /\ now_naive W tz < wall b).
Proof.
  intros Hr.
  destruct (reports_inv L W _ _ Hr)
    as (tz & path & ws & ov & d & l2 & l3 & evs & [_ Hz Hp] & Hf & _ & _ & Ew & Hnl & _ & Hin).
  apply (frozen_event L path _ _ _ ws _ _ _ _ evs Hnl path true) in Hin.
  destruct Hin as [_ Hfrozen].
  destruct (freeze_logic_inv L tz _ _ _ _ _ ws _ Hf)
    as [-> | [(Hs & He & a & b & -> & Hin) | (Hrr & a & b & -> & Hin)]];
    try discriminate Hfrozen; exists tz, a, b;
    (split; [exact Hz | ]);
    (split; [reported path Hp Ew 8 | ]);
    (split; [reported path Hp Ew 9 | ]).
  - left. rewrite instant_astimezone in Hin.
    repeat split; try assumption; try apply Hin. reported path Hp Ew 5.
  - right. repeat split; try assumption. reported path Hp Ew 5.
Qed.

(** X11. Without [GITHUB_OUTPUT] no run succeeds: a fatal input error still
    exits with status 1, every other run stops on the [KeyError] of the first
    output, and nothing is written, the summary included. *)
Theorem missing_output_file (L : Libs) (W : World) :
  environ W "GITHUB_OUTPUT" = None ->
  written (snd (main L W init)) = []
  /\ (exit_of L W = SysExit 1 \/ exit_of L W = Uncaught "KeyError: 'GITHUB_OUTPUT'").
Proof.
  intros Hnone.
  destruct (run_ending L W)
    as [Hx Hw | _ Hx Hw | tz path ws ov d l2 l3 evs [_ _ Hp] _ _ _ _ _ _ _];
    [auto | auto | congruence].
Qed.

(** X12. With the summary switched on and no [GITHUB_STEP_SUMMARY], no run
    exits with status 0: past the input checks the twelve outputs are written
    to the file of [GITHUB_OUTPUT] and the run then stops on a [KeyError],
    so that the status of the decision is never delivered. *)
Theorem missing_summary_file (L : Libs) (W : World) (path : string) :
  summary_ready L W = false ->
  environ W "GITHUB_OUTPUT" = Some path ->
  exit_of L W = SysExit 1 /\ written (snd (main L W init)) = []
  \/ exit_of L W = Uncaught "KeyError: 'GITHUB_STEP_SUMMARY'"
     /\ List.length (written (snd (main L W init))) = 12%nat
     /\ forall q t, In (q, t) (written (snd (main L W init))) -> q = path.
Proof.
  intros Hs Hp.
  destruct (run_ending L W)
    as [Hx Hw | Hnone _ _ | tz path' ws ov d l2 l3 evs [_ _ Hp'] _ _ _ Ew _ _ Hexit];
    [now left | congruence | right].
  assert (path' = path) as -> by congruence.
  destruct Hexit as [[Hs' _] | (_ & Hx & ->)]; [congruence | ].
  rewrite Ew, app_nil_r. split; [exact Hx | split; [reflexivity | ]].
  intros q t Hin. unfold output_events in Hin. cbn [In] in Hin.
  repeat (destruct Hin as [[= <- _] | Hin]; [reflexivity | ]). contradiction.
Qed.

(** X13. A run that writes anything writes the twelve outputs first, each
    once, to the file of [GITHUB_OUTPUT] and in the order of the source; what
    follows is at most one text, for the file of [GITHUB_STEP_SUMMARY]. *)
Theorem outputs_in_order (L : Libs) (W : World) :
  written (snd (main L W init)) = []
  \/ exists path,
       environ W "GITHUB_OUTPUT" = Some path
       /\ map fst (firstn 12 (written (snd (main L W init)))) = repeat path 12
       /\ map (fun e => key_of (snd e)) (firstn 12 (written (snd (main L W init))))
          = output_keys
       /\ (List.length (skipn 12 (written (snd (main L W init)))) <= 1)%nat
       /\ forall q t,
            In (q, t) (skipn 12 (written (snd (main L W init)))) ->
            environ W "GITHUB_STEP_SUMMARY" = Some q.
Proof.
  destruct (run_ending L W)
    as [_ Hw | _ _ Hw | tz path ws ov d l2 l3 evs [_ _ Hp] _ _ _ Ew Hlen Hsum _];
    [now left | now left | right].
  exists path. rewrite Ew. unfold output_events. cbn [app firstn skipn map fst snd].
  repeat split; try assumption.
  intros q t Hin. now apply Hsum in Hin.
Qed.

(** ** Further properties: the windows and the overrides *)

Lemma fixed_bounds_freeze (L : Libs) (W : World) (tz : tzinfo) (start end_ : aware) :
  fixed_bounds L W tz start end_ ->
  exists ws,
    logs (freeze_logic L tz (astimezone tz (clock W))
            (get_input L W "freeze_start") (get_input L W "freeze_end")
            (get_input L W "rrule") (get_input L W "duration_minutes"))
      (Normal ws) []
    /\ is_frozen ws = ((instant start <=? clock W) && (clock W <=? instant end_))%bool.
Proof.
  intros (Hs & He & Hr & dt_start & dt_end & Ps & Pe & Ls & Le).
  assert (Hw : exists ws,
             fixed_window L tz (astimezone tz (clock W))
               (str_of (get_input L W "freeze_start"))
               (str_of (get_input L W "freeze_end")) = Ok ws
             /\ is_frozen ws
                = ((instant start <=? clock W) && (clock W <=? instant end_))%bool).
  { unfold fixed_window. rewrite Ps, Pe. cbn [rbind]. rewrite Ls, Le. cbn [rbind].
    unfold aware_le. rewrite instant_astimezone.
    destruct ((instant start <=? clock W) && (clock W <=? instant end_))%bool;
      eexists; split; reflexivity. }
  destruct Hw as (ws & Hw & Hfrozen). exists ws. split; [ | exact Hfrozen].
  apply freeze_fixed; [guards | guards | exact Hw].
Qed.

(** X14. A fixed window whose end lies before its start is accepted and is
    never frozen, whatever the instant. *)
Theorem inverted_window_never_frozen (L : Libs) (W : World) (tz : tzinfo)
    (path : string) (start end_ : aware) :
  ready L W tz path ->
  fixed_bounds L W tz start end_ ->
  instant end_ < instant start ->
  reports L W "is_frozen" "false".
Proof.
  intros Hready Hbounds Hinv.
  destruct (fixed_bounds_freeze L W tz start end_ Hbounds) as (ws & Hf & Hfrozen).
  apply (reports_frozen L W tz path Hready ws false Hf). rewrite Hfrozen.
  apply andb_false_iff. rewrite !Z.leb_gt. lia.
Qed.

(** X15. A recurrence rule without any occurrence up to now (a rule that
    starts in the future) leaves the run not frozen, whatever the duration. *)
Theorem no_occurrence_not_frozen (L : Libs) (W : World) (tz : tzinfo)
    (path : string) (minutes : Z) :
  ready L W tz path ->
  recurrence L W tz None minutes ->
  reports L W "is_frozen" "false".
Proof.
  intros Hready Hrec.
  pose proof (recurring_none L W tz minutes Hrec) as Hw.
  pose proof (recurring_freeze L W tz minutes None no_window Hrec Hw) as Hf.
  now apply (reports_frozen L W tz path Hready no_window false Hf).
Qed.

(** X16. With [rrule] supplied, a [duration_minutes] that [int] cannot read
    is a fatal error: exit status 1 and nothing written. *)
Theorem unreadable_duration_fatal (L : Libs) (W : World) (msg : string) :
  truthy (get_input L W "rrule") = true ->
  truthy (get_input L W "duration_minutes") = true ->
  builtin_int L (str_of (get_input L W "duration_minutes")) = Raise msg ->
  exit_of L W = SysExit 1 /\ written (snd (main L W init)) = [].
Proof.
  intros Hr Hd Hint. apply fatal_in_freeze. intros tz.
  assert (Hraise : recurring_window L tz (astimezone tz (clock W))
                     (str_of (get_input L W "rrule"))
                     (str_of (get_input L W "duration_minutes")) = Raise msg).
  { unfold recurring_window. now rewrite Hint. }
  destruct (truthy (get_input L W "freeze_start")) eqn:Hs;
    destruct (truthy (get_input L W "freeze_end")) eqn:He;
    eexists;
    solve [ apply freeze_both; guards
          | eapply freeze_recurring_raise; [guards .. | exact Hraise] ].
Qed.

(** X17. A duration that carries the end of the window out of the range of
    [datetime] (before year 1 or after year 9999) is a fatal error: exit
    status 1 and nothing written. *)
Theorem window_end_out_of_range_fatal (L : Libs) (W : World) (tz : tzinfo) (O D : Z) :
  pytz_timezone L (get_input_or L W "timezone" "UTC") = Some tz ->
  recurrence L W tz (Some O) D ->
  ~ representable (O + D * usec_per_minute) ->
  exit_of L W = SysExit 1 /\ written (snd (main L W init)) = [].
Proof.
  intros Hz (Hs & He & Hr & Hd & Hint & rule & Hrule & Hbefore) Hout.
  assert (Hraise : exists msg,
             recurring_window L tz (astimezone tz (clock W))
               (str_of (get_input L W "rrule"))
               (str_of (get_input L W "duration_minutes")) = Raise msg).
  { unfold recurring_window. rewrite Hint. cbn [rbind].
    fold (now_naive W tz). rewrite Hrule. cbn [rbind]. rewrite Hbefore. cbn [rbind].
    unfold timedelta_minutes.
    destruct (Z.abs (D / 1440) <=? timedelta_max_days); cbn [rbind]; [ | now eexists].
    unfold datetime_add.
    destruct ((0 <=? O + D * usec_per_minute)
              && (O + D * usec_per_minute <=? datetime_max))%bool eqn:Hin;
      cbn [rbind]; [ | now eexists].
    exfalso. apply Hout. apply andb_true_iff in Hin. rewrite !Z.leb_le in Hin.
    exact Hin. }
  destruct Hraise as [msg Hraise].
  destruct (truthy (get_input L W "environment")) eqn:Henv.
  2:{ eapply fatal_run, main_no_environment, Henv. }
  eapply fatal_run, main_freeze_exit; [exact Henv | exact Hz | ].
  eapply freeze_recurring_raise; [guards .. | exact Hraise].
Qed.

(** Without a rule the freeze logic does not look at the duration. *)
Lemma freeze_without_rule (L : Libs) (tz : tzinfo) (now_local : aware)
    (fs fe rr dur dur' : option string) :
  truthy rr = false ->
  same_run (freeze_logic L tz now_local fs fe rr dur)
    (freeze_logic L tz now_local fs fe rr dur').
Proof.
  intros Hr.
  destruct (truthy fs) eqn:Hfs; destruct (truthy fe) eqn:Hfe;
    try (eapply same_run_logs; apply freeze_nothing; guards).
  destruct (fixed_window L tz now_local (str_of fs) (str_of fe)) as [ws | msg] eqn:Hw.
  - eapply same_run_logs; apply freeze_fixed; solve [guards | exact Hw].
  - eapply same_run_logs; eapply freeze_fixed_raise; solve [guards | exact Hw].
Qed.

(** X18. Without [rrule], [duration_minutes] is not looked at: whatever its
    value, the run exits and writes as the run in which it is not set. *)
Theorem duration_ignored_without_rrule (L : Libs) (W : World) :
  truthy (get_input L W "rrule") = false ->
  exit_of L W = exit_of L (unset "INPUT_DURATION_MINUTES" W)
  /\ written (snd (main L W init))
     = written (snd (main L (unset "INPUT_DURATION_MINUTES" W) init)).
Proof.
  intros Hr.
  assert (Hsame : same_run (main L W) (main L (unset "INPUT_DURATION_MINUTES" W))).
  { apply main_same_run.
    - constructor; reflexivity.
    - intros tz. exact (freeze_without_rule L tz _ _ _ _ _ None Hr).
    - intros frozen.
      destruct (override_logic_cases W (get_input L W "allow_override_label")
                  (get_input L W "allow_override_actor") frozen) as (ov & l & H & _).
      exact (same_run_self _ _ _ H). }
  exact (Hsame init init eq_refl).
Qed.

(** X19. The label override is looked at on [pull_request] events only: on
    any other event, named or not, the run exits and writes as the run
    without [allow_override_label], whatever the payload holds. *)
Theorem label_ignored_outside_pull_request (L : Libs) (W : World) :
  opt_eqb (environ W "GITHUB_EVENT_NAME") "pull_request" = false ->
  exit_of L W = exit_of L (unset "INPUT_ALLOW_OVERRIDE_LABEL" W)
  /\ written (snd (main L W init))
     = written (snd (main L (unset "INPUT_ALLOW_OVERRIDE_LABEL" W) init)).
Proof.
  intros Hevent.
  assert (Hlabel : logs (label_override W (get_input L W "allow_override_label"))
                     (Normal (false, "")) []).
  { apply label_not_checked. unfold label_checked. rewrite Hevent.
    apply andb_false_r. }
  assert (Hsame : same_run (main L W) (main L (unset "INPUT_ALLOW_OVERRIDE_LABEL" W))).
  { apply main_same_run.
    - constructor; reflexivity.
    - intros tz.
      destruct (freeze_logic_cases L tz (astimezone tz (clock W))
                  (get_input L W "freeze_start") (get_input L W "freeze_end")
                  (get_input L W "rrule") (get_input L W "duration_minutes"))
        as [[l H] | [ws H]]; exact (same_run_self _ _ _ H).
    - intros [|]; [ | eapply same_run_logs; apply override_not_frozen].
      destruct (actor_override_cases W (get_input L W "allow_override_actor") (false, ""))
        as (ov & lines & Ha).
      eapply same_run_logs.
      + exact (override_frozen W _ _ _ _ _ _ Hlabel Ha).
      + apply (override_frozen (unset "INPUT_ALLOW_OVERRIDE_LABEL" W) None
                 (get_input L W "allow_override_actor") (false, "") ov [] lines).
        * now apply label_not_checked.
        * exact Ha. }
  exact (Hsame init init eq_refl).
Qed.

(** X20. In a frozen run where the label check leaves no override, the run
    reports an override exactly when [allow_override_actor] is set and
    [GITHUB_ACTOR] equals it, letter for letter; the reason then names the
    actor and the decision is ALLOW. *)
Theorem actor_override_exact (L : Libs) (W : World) (tz : tzinfo) (path : string)
    (lines : list string) :
  ready L W tz path ->
  frozen_run L W tz ->
  logs (label_override W (get_input L W "allow_override_label")) (Normal (false, ""))
    lines ->
  (reports L W "overridden" "true"
   <-> truthy (get_input L W "allow_override_actor") = true
       /\ environ W "GITHUB_ACTOR" = Some (str_of (get_input L W "allow_override_actor")))
  /\ (reports L W "overridden" "true" ->
      reports L W "override_reason" (actor_reason W)
      /\ reports L W "decision" "ALLOW").
Proof.
  intros [He Hz Hp] (ws & Hf & Hfrozen) Hlabel.
  destruct (main_written L W tz ws path He Hz Hf Hp)
    as (ov & d & l2 & l3 & evs & Ho & Hd & _ & Ew & Hnl & _).
  rewrite Hfrozen in Ho, Hd.
  assert (Hactor :
            truthy (get_input L W "allow_override_actor") = true
            /\ environ W "GITHUB_ACTOR" = Some (str_of (get_input L W "allow_override_actor"))
            <-> ov = (true, actor_reason W)).
  { destruct (truthy (get_input L W "allow_override_actor")) eqn:Ha.
    - destruct (opt_eqb (environ W "GITHUB_ACTOR")
                  (str_of (get_input L W "allow_override_actor"))) eqn:Hm.
      + destruct (logs_fun _ _ _ _ _ Ho
                    (override_frozen W _ _ _ _ _ _ Hlabel (actor_matches W _ "" Ha Hm)))
          as [[= ->] _].
        split; [reflexivity | intros _; split; [reflexivity | ]].
        unfold opt_eqb in Hm. destruct (environ W "GITHUB_ACTOR"); [ | discriminate].
        apply String.eqb_eq in Hm. now subst.
      + destruct (logs_fun _ _ _ _ _ Ho
                    (override_frozen W _ _ _ _ _ _ Hlabel (actor_differs W _ "" Hm)))
          as [[= ->] _].
        split; [ | discriminate]. intros [_ E]. rewrite E in Hm. cbn in Hm.
        now rewrite String.eqb_refl in Hm.
    - destruct (logs_fun _ _ _ _ _ Ho
                  (override_frozen W _ _ _ _ _ _ Hlabel
                     (actor_not_configured W _ (false, "") Ha)))
        as [[= ->] _].
      split; [intros [? _] | ]; discriminate. }
  assert (Hrep : reports L W "overridden" "true" <-> ov = (true, actor_reason W)).
  { split.
    - intros (q & _ & Hin). rewrite Ew in Hin.
      apply (overridden_event L path _ _ _ ws _ _ _ _ evs Hnl q true) in Hin.
      destruct Hin as [_ Hov].
      destruct (override_logic_inv W _ _ _ _ _ Ho)
        as [-> | [(_ & ->) | (_ & -> & _)]]; [discriminate Hov | | reflexivity].
      exfalso.
      destruct (actor_override_cases W (get_input L W "allow_override_actor") (false, ""))
        as (ov' & l' & Ha).
      destruct (logs_fun _ _ _ _ _ Ho (override_frozen W _ _ _ _ _ _ Hlabel Ha))
        as [[= <-] _].
      destruct (truthy (get_input L W "allow_override_actor")) eqn:Hta.
      + destruct (opt_eqb (environ W "GITHUB_ACTOR")
                    (str_of (get_input L W "allow_override_actor"))) eqn:Hm.
        * destruct (logs_fun _ _ _ _ _ Ha (actor_matches W _ "" Hta Hm)) as [E _].
          unfold label_reason, actor_reason in E. discriminate E.
        * destruct (logs_fun _ _ _ _ _ Ha (actor_differs W _ "" Hm)) as [E _].
          discriminate E.
      + destruct (logs_fun _ _ _ _ _ Ha (actor_not_configured W _ (false, "") Hta))
          as [E _].
        discriminate E.
    - intros ->. cbn [fst snd] in Ew. reported path Hp Ew 10. }
  split; [now rewrite Hrep, Hactor | ].
  intros Hr. apply Hrep in Hr. subst ov. cbn [fst snd] in *.
  destruct (logs_fun _ _ _ _ _ Hd (decision_overridden _ _ _ _)) as [[= ->] _].
  cbn [fst snd] in Ew.
  split; [reported path Hp Ew 11 | reported path Hp Ew 1].
Qed.

(** ** The further properties on the scenarios of the tests *)

Lemma get_input_any_case_witness :
  get_input Demo.libs (Demo.world Demo.fixed_vars Demo.christmas) "Freeze_Start"
  = get_input Demo.libs (Demo.world Demo.fixed_vars Demo.christmas) "FREEZE_START".
Proof.
  symmetry.
  apply (get_input_any_case Demo.libs (Demo.world Demo.fixed_vars Demo.christmas)
           "Freeze_Start").
  reflexivity.
Defined.

Lemma run_exit_statuses_witness :
  exit_of Demo.libs (Demo.world Demo.fixed_vars Demo.christmas) = SysExit 1
  /\ (1 = 0 \/ 1 = 1).
Proof.
  split; [reflexivity | ].
  apply (proj2 (run_exit_statuses Demo.libs
                  (Demo.world Demo.fixed_vars Demo.christmas)) 1).
  reflexivity.
Defined.

Lemma label_matches_exactly_witness :
  exists b,
    label_in_payload (Demo.world [] 0) "event.json" "hotfix-override" = Ok b
    /\ (b = true <-> In "hotfix-override" ["hotfix-override"; "bug"]).
Proof.
  eapply (label_matches_exactly (Demo.world [] 0) "event.json" "hotfix-override");
    try reflexivity.
  repeat constructor; eexists; split; reflexivity.
Defined.

Lemma payload_without_labels_witness :
  label_in_payload (Demo.payload_world (JObj [("action", JStr "opened")])) "event.json"
    "hotfix-override" = Ok false.
Proof.
  eapply (payload_without_labels
            (Demo.payload_world (JObj [("action", JStr "opened")])));
    [reflexivity | left; reflexivity].
Defined.

Lemma nameless_label_spoils_check_witness :
  exists msg,
    label_in_payload (Demo.payload_world Demo.nameless) "event.json" "hotfix-override"
    = Raise msg.
Proof.
  eapply (nameless_label_spoils_check (Demo.payload_world Demo.nameless)
            "event.json" "hotfix-override" _ _ _ (JObj [("id", JNum 7)]));
    try reflexivity.
  - left. reflexivity.
  - intros v. discriminate.
Defined.

Lemma exit_status_meaning_witness :
  written (snd (main Demo.libs (Demo.world Demo.fixed_vars Demo.christmas) init)) = []
  \/ reports Demo.libs (Demo.world Demo.fixed_vars Demo.christmas) "decision" "BLOCK".
Proof.
  apply (proj1 (exit_status_meaning Demo.libs
                  (Demo.world Demo.fixed_vars Demo.christmas))).
  reflexivity.
Defined.

Lemma enforced_only_when_frozen_witness :
  reports Demo.libs (Demo.world Demo.fixed_vars Demo.christmas) "is_frozen" "true".
Proof.
  apply (proj1 (enforced_only_when_frozen Demo.libs
                  (Demo.world Demo.fixed_vars Demo.christmas))).
  exists Demo.output_file. split; [reflexivity | written_there].
Defined.

Lemma reported_override_allows_witness :
  reports Demo.libs
    (Demo.world (Demo.fixed_vars ++ Demo.actor_vars) Demo.christmas) "decision" "ALLOW".
Proof.
  apply (reported_override_allows Demo.libs
           (Demo.world (Demo.fixed_vars ++ Demo.actor_vars) Demo.christmas)).
  exists Demo.output_file. split; [reflexivity | written_there].
Defined.

Lemma not_frozen_reports_no_window_witness :
  reports Demo.libs (Demo.world (Demo.weekend_vars "1440") Demo.friday)
    "window_type" "NONE".
Proof.
  apply (not_frozen_reports_no_window Demo.libs
           (Demo.world (Demo.weekend_vars "1440") Demo.friday)).
  exists Demo.output_file. split; [reflexivity | written_there].
Defined.

Lemma frozen_reports_its_window_witness :
  exists tz a b,
    pytz_timezone Demo.libs
      (get_input_or Demo.libs (Demo.world Demo.fixed_vars Demo.christmas) "timezone" "UTC")
    = Some tz
    /\ reports Demo.libs (Demo.world Demo.fixed_vars Demo.christmas) "freeze_start"
         (dt_isoformat Demo.libs a)
    /\ reports Demo.libs (Demo.world Demo.fixed_vars Demo.christmas) "freeze_end"
         (dt_isoformat Demo.libs b)
    /\ (reports Demo.libs (Demo.world Demo.fixed_vars Demo.christmas) "window_type" "FIXED"
        /\ truthy (get_input Demo.libs (Demo.world Demo.fixed_vars Demo.christmas) "freeze_start")
           = true
        /\ truthy (get_input Demo.libs (Demo.world Demo.fixed_vars Demo.christmas) "freeze_end")
           = true
        /\ instant a <= clock (Demo.world Demo.fixed_vars Demo.christmas) <= instant b
        \/ reports Demo.libs (Demo.world Demo.fixed_vars Demo.christmas)
             "window_type" "RRULE"
           /\ truthy (get_input Demo.libs (Demo.world Demo.fixed_vars Demo.christmas) "rrule") = true
           /\ now_naive (Demo.world Demo.fixed_vars Demo.christmas) tz < wall b).
Proof.
  apply (frozen_reports_its_window Demo.libs
           (Demo.world Demo.fixed_vars Demo.christmas)).
  exists Demo.output_file. split; [reflexivity | written_there].
Defined.

Lemma missing_output_file_witness :
  written (snd (main Demo.libs
                  (Demo.bare_world [("INPUT_ENVIRONMENT", "production")] Demo.christmas)
                  init)) = [].
Proof.
  apply (missing_output_file Demo.libs
           (Demo.bare_world [("INPUT_ENVIRONMENT", "production")] Demo.christmas)).
  reflexivity.
Defined.

Lemma missing_summary_file_witness :
  exit_of Demo.libs
    (Demo.bare_world [("INPUT_ENVIRONMENT", "production");
                      ("GITHUB_OUTPUT", "github_output.txt")] Demo.christmas)
  = SysExit 1
  /\ written (snd (main Demo.libs
                     (Demo.bare_world [("INPUT_ENVIRONMENT", "production");
                                       ("GITHUB_OUTPUT", "github_output.txt")]
                        Demo.christmas) init)) = []
  \/ exit_of Demo.libs
       (Demo.bare_world [("INPUT_ENVIRONMENT", "production");
                         ("GITHUB_OUTPUT", "github_output.txt")] Demo.christmas)
     = Uncaught "KeyError: 'GITHUB_STEP_SUMMARY'"
     /\ List.length
          (written (snd (main Demo.libs
                           (Demo.bare_world [("INPUT_ENVIRONMENT", "production");
                                             ("GITHUB_OUTPUT", "github_output.txt")]
                              Demo.christmas) init))) = 12%nat
     /\ forall q t,
          In (q, t)
            (written (snd (main Demo.libs
                             (Demo.bare_world [("INPUT_ENVIRONMENT", "production");
                                               ("GITHUB_OUTPUT", "github_output.txt")]
                                Demo.christmas) init))) ->
          q = Demo.output_file.
Proof.
  apply (missing_summary_file Demo.libs
           (Demo.bare_world [("INPUT_ENVIRONMENT", "production");
                             ("GITHUB_OUTPUT", "github_output.txt")] Demo.christmas)
           Demo.output_file);
    reflexivity.
Defined.

Lemma inverted_window_never_frozen_witness :
  reports Demo.libs (Demo.world Demo.inverted_vars Demo.christmas) "is_frozen" "false".
Proof.
  apply (inverted_window_never_frozen Demo.libs
           (Demo.world Demo.inverted_vars Demo.christmas) Demo.utc Demo.output_file
           (Demo.midnight 2023 12 26) (Demo.midnight 2023 12 24)).
  - constructor; reflexivity.
  - repeat split. do 2 eexists. repeat split; reflexivity.
  - vm_compute. reflexivity.
Defined.

Lemma no_occurrence_not_frozen_witness :
  reports Demo.libs (Demo.world (Demo.weekend_vars "1440") Demo.friday)
    "is_frozen" "false".
Proof.
  apply (no_occurrence_not_frozen Demo.libs
           (Demo.world (Demo.weekend_vars "1440") Demo.friday) Demo.utc
           Demo.output_file 1440).
  - constructor; reflexivity.
  - repeat split. eexists. split; reflexivity.
Defined.

Lemma unreadable_duration_fatal_witness :
  exit_of Demo.libs (Demo.world (Demo.weekend_vars "1.5") Demo.saturday) = SysExit 1.
Proof.
  eapply (unreadable_duration_fatal Demo.libs
            (Demo.world (Demo.weekend_vars "1.5") Demo.saturday));
    reflexivity.
Defined.

Lemma window_end_out_of_range_fatal_witness :
  exit_of Demo.libs (Demo.world (Demo.weekend_vars "99999999999") Demo.saturday)
  = SysExit 1.
Proof.
  apply (window_end_out_of_range_fatal Demo.libs
           (Demo.world (Demo.weekend_vars "99999999999") Demo.saturday) Demo.utc
           Demo.saturday 99999999999).
  - reflexivity.
  - repeat split. eexists. split; reflexivity.
  - vm_compute. intros [_ H]. now apply H.
Defined.

Lemma duration_ignored_without_rrule_witness :
  exit_of Demo.libs
    (Demo.world (Demo.fixed_vars ++ [("INPUT_DURATION_MINUTES", "1.5")]) Demo.christmas)
  = exit_of Demo.libs
      (unset "INPUT_DURATION_MINUTES"
         (Demo.world (Demo.fixed_vars ++ [("INPUT_DURATION_MINUTES", "1.5")])
            Demo.christmas)).
Proof.
  apply (duration_ignored_without_rrule Demo.libs
           (Demo.world (Demo.fixed_vars ++ [("INPUT_DURATION_MINUTES", "1.5")])
              Demo.christmas)).
  reflexivity.
Defined.

Lemma label_ignored_outside_pull_request_witness :
  exit_of Demo.libs
    (Demo.world (Demo.fixed_vars
                 ++ [("INPUT_ALLOW_OVERRIDE_LABEL", "hotfix-override");
                     ("GITHUB_EVENT_NAME", "pull_request_target");
                     ("GITHUB_EVENT_PATH", "event.json")]) Demo.christmas)
  = exit_of Demo.libs
      (unset "INPUT_ALLOW_OVERRIDE_LABEL"
         (Demo.world (Demo.fixed_vars
                      ++ [("INPUT_ALLOW_OVERRIDE_LABEL", "hotfix-override");
                          ("GITHUB_EVENT_NAME", "pull_request_target");
                          ("GITHUB_EVENT_PATH", "event.json")]) Demo.christmas)).
Proof.
  apply (label_ignored_outside_pull_request Demo.libs
           (Demo.world (Demo.fixed_vars
                        ++ [("INPUT_ALLOW_OVERRIDE_LABEL", "hotfix-override");
                            ("GITHUB_EVENT_NAME", "pull_request_target");
                            ("GITHUB_EVENT_PATH", "event.json")]) Demo.christmas)).
  reflexivity.
Defined.

Lemma actor_override_exact_witness :
  reports Demo.libs
    (Demo.world (Demo.fixed_vars ++ Demo.actor_vars) Demo.christmas) "overridden" "true".
Proof.
  apply (proj1 (actor_override_exact Demo.libs
                  (Demo.world (Demo.fixed_vars ++ Demo.actor_vars) Demo.christmas)
                  Demo.utc Demo.output_file []
                  ltac:(constructor; reflexivity)
                  ltac:(exists Demo.christmas_window;
                        split; [apply freeze_fixed; reflexivity | reflexivity])
                  ltac:(apply label_not_checked; reflexivity))).
  split; reflexivity.
Defined.
